(** * counting-words/main.py: a shallow embedding and its verified properties

    The script enumerates the [dc*.md] files of a directory, sends each one
    to a remote text-generation service, scans the reply for two labelled
    integers and writes one CSV row per file.

    Conventions of the embedding.
    - A Python [str] is a Rocq [string]; a character is its code point in
      the range 0..255.
    - [None] is [option]'s [None]; a raised exception is the [Raise] branch
      of [result].
    - The remote service and the file system are inputs of the run: a
      [world] records the directory listing, the contents of the files, the
      outcome of each remote call and the interpreter's cap on the number of
      digits [int] converts ([sys.get_int_max_str_digits()], [0] when the
      interpreter has no cap).
    - Console output is not modelled, except the three numbers of the final
      summary; neither is the pause after each document.  Writing
      [output.csv] is modelled by the text written. *)

From Stdlib Require Import ZArith List String Ascii Bool Lia.
From Stdlib Require Import DecimalString DecimalPos DecimalZ.
From Stdlib Require Import Sorted Permutation.
Import ListNotations.

Local Open Scope string_scope.
Local Open Scope Z_scope.

(* ================================================================== *)
(** ** Python built-ins used by the script *)
(* ================================================================== *)

Module Py.

(** Code point of a character. *)
Definition ord (c : ascii) : N := N_of_ascii c.

(** [c.isspace()], the set removed by [str.strip()]. *)
Definition isspace (c : ascii) : bool :=
  let n := ord c in
  (((9 <=? n) && (n <=? 13)) || ((28 <=? n) && (n <=? 31))
   || (n =? 32) || (n =? 133) || (n =? 160))%N.

(** White space skipped by [int(...)] around the numeral: the separators
    U+001C..U+001F are stripped by [str.strip] but rejected by [int]. *)
Definition int_isspace (c : ascii) : bool :=
  let n := ord c in
  (((9 <=? n) && (n <=? 13)) || (n =? 32) || (n =? 133) || (n =? 160))%N.

Definition isdigit (c : ascii) : bool :=
  let n := ord c in ((48 <=? n) && (n <=? 57))%N.

Definition digit_value (c : ascii) : Z := Z.of_N (ord c) - 48.

Definition is_underscore (c : ascii) : bool := Ascii.eqb c "_".

(** [s.lstrip()] *)
Fixpoint lstrip (s : string) : string :=
  match s with
  | String c s' => if isspace c then lstrip s' else s
  | EmptyString => EmptyString
  end.

(** [s.rstrip()] *)
Fixpoint rstrip (s : string) : string :=
  match s with
  | String c s' =>
      match rstrip s' with
      | EmptyString => if isspace c then EmptyString else String c EmptyString
      | r => String c r
      end
  | EmptyString => EmptyString
  end.

(** [s.strip()] *)
Definition strip (s : string) : string := rstrip (lstrip s).

(** [s.split(sep)] for a one-character separator: never the empty list. *)
Fixpoint split (sep : ascii) (s : string) : list string :=
  match s with
  | EmptyString => [EmptyString]
  | String c s' =>
      if Ascii.eqb c sep then EmptyString :: split sep s'
      else match split sep s' with
           | h :: t => String c h :: t
           | [] => [String c EmptyString]
           end
  end.

(** [needle in hay] *)
Fixpoint contains (needle hay : string) : bool :=
  String.prefix needle hay ||
  match hay with
  | String _ hay' => contains needle hay'
  | EmptyString => false
  end.

(** [s.replace(old, new)] for a non-empty [old]: occurrences are replaced
    from left to right and do not overlap.  [skip] counts the characters of
    an occurrence still to be dropped. *)
Fixpoint replace_from (old new : string) (skip : nat) (s : string) : string :=
  match s with
  | EmptyString => EmptyString
  | String c s' =>
      match skip with
      | S k => replace_from old new k s'
      | O =>
          if String.prefix old s
          then new ++ replace_from old new (Nat.pred (String.length old)) s'
          else String c (replace_from old new O s')
      end
  end.

Definition replace (old new s : string) : string := replace_from old new O s.

(** [s.rfind(c)], [None] for Python's [-1]. *)
Fixpoint rfind (c : ascii) (s : string) : option nat :=
  match s with
  | EmptyString => None
  | String a s' =>
      match rfind c s' with
      | Some i => Some (S i)
      | None => if Ascii.eqb a c then Some O else None
      end
  end.

(** [s.endswith(suffix)] *)
Definition endswith (suffix s : string) : bool :=
  let n := String.length s in
  let k := String.length suffix in
  (k <=? n)%nat && String.eqb (String.substring (n - k) k s) suffix.

(** *** [int(s)] on a string, base ten

    The numeral is: optional white space, an optional sign, decimal digits
    with single underscores allowed between digits, optional white space.
    [None] stands for [ValueError]. *)

Fixpoint int_lstrip (s : string) : string :=
  match s with
  | String c s' => if int_isspace c then int_lstrip s' else s
  | EmptyString => EmptyString
  end.

(** The longest prefix made of digits and underscores, and what follows. *)
Fixpoint span_numeral (s : string) : string * string :=
  match s with
  | String c s' =>
      if isdigit c || is_underscore c
      then let '(b, r) := span_numeral s' in (String c b, r)
      else (EmptyString, s)
  | EmptyString => (EmptyString, EmptyString)
  end.

(** No underscore first, last, or next to another one. *)
Fixpoint underscores_ok (prev_us : bool) (s : string) : bool :=
  match s with
  | EmptyString => negb prev_us
  | String c s' =>
      if is_underscore c then negb prev_us && underscores_ok true s'
      else underscores_ok false s'
  end.

Definition numeral_ok (b : string) : bool :=
  match b with
  | EmptyString => false
  | String c _ => negb (is_underscore c) && underscores_ok false b
  end.

Fixpoint all_int_space (s : string) : bool :=
  match s with
  | EmptyString => true
  | String c s' => int_isspace c && all_int_space s'
  end.

Fixpoint count_digits (s : string) : nat :=
  match s with
  | EmptyString => O
  | String c s' => if is_underscore c then count_digits s' else S (count_digits s')
  end.

Fixpoint digits_value (s : string) (acc : Z) : Z :=
  match s with
  | EmptyString => acc
  | String c s' =>
      if is_underscore c then digits_value s' acc
      else digits_value s' (10 * acc + digit_value c)
  end.

(** Numerals of at most this many digits are converted whatever the cap. *)
Definition max_str_digits_threshold : nat := 640.

(** The interpreter refuses a numeral of more than [max_str_digits] digits
    when that cap is not [0]. *)
Definition too_many_digits (max_str_digits digits : nat) : bool :=
  (max_str_digits_threshold <? digits)%nat
  && (0 <? max_str_digits)%nat && (max_str_digits <? digits)%nat.

(** An optional sign in front of the numeral. *)
Definition split_sign (s : string) : bool * string :=
  match s with
  | String c r =>
      if Ascii.eqb c "-" then (true, r)
      else if Ascii.eqb c "+" then (false, r)
      else (false, s)
  | EmptyString => (false, s)
  end.

Definition int (max_str_digits : nat) (s : string) : option Z :=
  let '(negative, s2) := split_sign (int_lstrip s) in
  let '(body, rest) := span_numeral s2 in
  if numeral_ok body && all_int_space rest then
    if too_many_digits max_str_digits (count_digits body) then None
    else let v := digits_value body 0 in Some (if negative then - v else v)
  else None.

(** [str(n)] for an integer. *)
Definition str (n : Z) : string := NilZero.string_of_int (Z.to_int n).

(** Truth value of an [int]-or-[None] in a condition. *)
Definition truthy (v : option Z) : bool :=
  match v with
  | Some n => negb (n =? 0)
  | None => false
  end.

(** [sorted(l)] where the elements compare as the strings [key x] do: a
    stable sort by code-point order. *)
Fixpoint insert_sorted {A : Type} (key : A -> string) (x : A) (l : list A)
  : list A :=
  match l with
  | [] => [x]
  | y :: l' =>
      if String.leb (key x) (key y) then x :: l
      else y :: insert_sorted key x l'
  end.

Definition sorted {A : Type} (key : A -> string) (l : list A) : list A :=
  fold_right (insert_sorted key) [] l.

(** [sum(l)] *)
Definition sum (l : list Z) : Z := fold_left Z.add l 0.

End Py.

(* ================================================================== *)
(** ** The script *)
(* ================================================================== *)

(** *** Exceptions and results *)

(** The exceptions a run can raise; all of them are instances of Python's
    [Exception], the class the handler of [count_savior_words] catches.
    [APIError] stands for whatever the client library raises. *)
Inductive exception : Type :=
| ValueError
| IndexError
| AttributeError
| OSError
| APIError.

Inductive result (A : Type) : Type :=
| Ok (a : A)
| Raise (e : exception).

Arguments Ok {A} a.
Arguments Raise {A} e.

Definition bind {A B : Type} (r : result A) (f : A -> result B) : result B :=
  match r with
  | Ok a => f a
  | Raise e => Raise e
  end.

Notation "x <- r ;; k" := (bind r (fun x => k))
  (at level 61, r at next level, right associativity).

(** *** The world a run observes *)

(** One entry of the directory [Doctrine and Covenants].  [text] is what
    [open(...).read()] returns, [None] when opening or decoding raises. *)
Record dir_entry : Type := {
  name : string;
  text : option string
}.

Inductive directory : Type :=
| NoDirectory
| Directory (entries : list dir_entry).

(** What [client.chat.completions.create] does on one call: it raises, or
    returns a response whose choices carry a message content each ([None]
    for a message without text). *)
Inductive api_outcome : Type :=
| ApiRaises
| ApiResponse (choices : list (option string)).

(** [create k p] is the outcome of the [k]-th call of the run (counted from
    [0]), made with the user prompt [p]; the model name, the system message,
    the temperature and the token bound are the same in every call. *)
Record world : Type := {
  max_str_digits : nat;
  dc_path : directory;
  create : nat -> string -> api_outcome
}.

(** *** [get_dc_files] *)

(** The names [Path.glob("dc*.md")] selects (case-sensitive matching). *)
Definition glob_dc_md (n : string) : bool :=
  String.prefix "dc" n && Py.endswith ".md" n && (5 <=? String.length n)%nat.

Definition get_dc_files (d : directory) : list dir_entry :=
  match d with
  | NoDirectory => []
  | Directory entries =>
      Py.sorted name (filter (fun f => glob_dc_md (name f)) entries)
  end.

(** [Path.stem]: the name without its last suffix, a leading or trailing
    dot not starting a suffix. *)
Definition stem (n : string) : string :=
  match Py.rfind "." n with
  | Some i =>
      if (0 <? i)%nat && (i <? String.length n - 1)%nat
      then String.substring 0 i n
      else n
  | None => n
  end.

(** *** [count_savior_words] *)

Definition nl : string := String (ascii_of_nat 10) EmptyString.
Definition cr : string := String (ascii_of_nat 13) EmptyString.
Definition dq : string := String (ascii_of_nat 34) EmptyString.
Definition newline : ascii := ascii_of_nat 10.

Definition prompt (section_number : Z) (content : string) : string :=
  String.concat nl
    [ "You are analyzing Section " ++ Py.str section_number
        ++ " of the Doctrine and Covenants.";
      "";
      "Your task is to count ONLY the words spoken directly by Jesus Christ (the Savior) in this section.";
      "";
      "Instructions:";
      "1. In the Doctrine and Covenants, the Savior's words are typically indicated by first-person pronouns like "
        ++ dq ++ "I" ++ dq ++ ", " ++ dq ++ "me" ++ dq ++ ", " ++ dq ++ "my" ++ dq
        ++ " when He is speaking";
      "2. Look for phrases like " ++ dq ++ "I the Lord" ++ dq ++ ", " ++ dq
        ++ "thus saith the Lord" ++ dq ++ ", " ++ dq ++ "verily I say" ++ dq
        ++ ", etc.";
      "3. Count ALL words that are direct quotations from the Savior";
      "4. Do NOT count:";
      "   - Narrative text";
      "   - Words spoken by other people";
      "   - Verse numbers in markdown like ## 1. as words.";
      "   - Descriptions about the Savior (third person references)";
      "";
      "Please analyze the following text and provide:";
      "1. The total word count of ONLY the Savior's direct words";
      "2. Your confidence level as a percentage (0-100) in this count";
      "";
      "Section Content:";
      content;
      "";
      "Respond in the following format ONLY:";
      "WORD_COUNT: [number]";
      "CONFIDENCE: [percentage without % symbol, e.g., 95]";
      "" ].

(** [int(line.split(':')[1].strip())] *)
Definition parse_field (lim : nat) (line : string) : result Z :=
  match nth_error (Py.split ":" line) 1 with
  | None => Raise IndexError
  | Some field =>
      match Py.int lim (Py.strip field) with
      | Some n => Ok n
      | None => Raise ValueError
      end
  end.

(** [try: v = int(...) except: pass] under [if label in line]. *)
Definition update_field (lim : nat) (label line : string) (v : option Z)
  : option Z :=
  if Py.contains label line then
    match parse_field lim line with
    | Ok n => Some n
    | Raise _ => v
    end
  else v.

(** One iteration of the loop over the lines of the reply. *)
Definition scan_line (lim : nat) (st : option Z * option Z) (line : string)
  : option Z * option Z :=
  let '(word_count, confidence) := st in
  let word_count := update_field lim "WORD_COUNT:" line word_count in
  let confidence := update_field lim "CONFIDENCE:" line confidence in
  (word_count, confidence).

(** The lines the loop runs over. *)
Definition reply_lines (response_text : string) : list string :=
  Py.split newline response_text.

(** Lines 61-76: both values start as [None]; every line is scanned. *)
Definition parse_response (lim : nat) (response_text : string)
  : option Z * option Z :=
  fold_left (scan_line lim) (reply_lines response_text) (None, None).

(** [response.choices[0].message.content.strip()] *)
Definition response_text (r : api_outcome) : result string :=
  match r with
  | ApiRaises => Raise APIError
  | ApiResponse [] => Raise IndexError
  | ApiResponse (None :: _) => Raise AttributeError
  | ApiResponse (Some content :: _) => Ok (Py.strip content)
  end.

(** The body of the [try] block. *)
Definition request_and_parse (lim : nat) (call : string -> api_outcome)
  (section_number : Z) (content : string) : result (option Z * option Z) :=
  txt <- response_text (call (prompt section_number content)) ;;
  Ok (parse_response lim txt).

Definition count_savior_words (lim : nat) (call : string -> api_outcome)
  (section_number : Z) (content : string) : option Z * option Z :=
  match request_and_parse lim call section_number content with
  | Ok r => r
  | Raise _ => (None, None)
  end.

(** *** [main] *)

(** A value stored in a cell of a result dictionary. *)
Inductive pyval : Type :=
| PNone
| PInt (n : Z)
| PStr (s : string).

(** An [int]-or-[None] variable stored as it is. *)
Definition pyval_of (v : option Z) : pyval :=
  match v with
  | Some n => PInt n
  | None => PNone
  end.

Record row : Type := {
  section : Z;
  words : pyval;
  confidence : pyval
}.

(** [int(file_path.stem.replace('dc', ''))] *)
Definition section_number_of (lim : nat) (f : dir_entry) : result Z :=
  match Py.int lim (Py.replace "dc" "" (stem (name f))) with
  | Some n => Ok n
  | None => Raise ValueError
  end.

(** [open(file_path, 'r', encoding='utf-8').read()] *)
Definition read_text (f : dir_entry) : result string :=
  match text f with
  | Some content => Ok content
  | None => Raise OSError
  end.

(** Lines 107-120: the row appended for a document. *)
Definition make_row (section_num : Z) (r : option Z * option Z) : row :=
  let '(word_count, confidence) := r in
  match word_count with
  | Some _ =>
      {| section := section_num;
         words := pyval_of word_count;
         confidence :=
           if Py.truthy confidence then pyval_of confidence else PInt 0 |}
  | None =>
      {| section := section_num;
         words := PStr "ERROR";
         confidence := PInt 0 |}
  end.

(** The body of the [for] loop for the file [f], the [k]-th of the run. *)
Definition process_file (w : world) (k : nat) (f : dir_entry) : result row :=
  section_num <- section_number_of (max_str_digits w) f ;;
  content <- read_text f ;;
  Ok (make_row section_num
        (count_savior_words (max_str_digits w) (create w k) section_num content)).

(** The [for] loop: [results] accumulates the rows, an exception leaves the
    loop and [main]. *)
Fixpoint process_files (w : world) (k : nat) (files : list dir_entry)
  (results : list row) : result (list row) :=
  match files with
  | [] => Ok results
  | f :: files' =>
      r <- process_file w k f ;;
      process_files w (S k) files' (results ++ [r])
  end.

(** [csv.DictWriter]: a cell is written as [str] of its value, [None] as the
    empty string.  The strings the script stores hold no comma, quote or
    line break, so that no cell is quoted. *)
Definition csv_cell (v : pyval) : string :=
  match v with
  | PNone => ""
  | PInt n => Py.str n
  | PStr s => s
  end.

Definition crlf : string := cr ++ nl.

Definition csv_header : string := "section,words,confidence".

Definition csv_row (r : row) : string :=
  Py.str (section r) ++ "," ++ csv_cell (words r) ++ "," ++ csv_cell (confidence r).

(** The records of the file, the header first. *)
Definition csv_records (results : list row) : list string :=
  csv_header :: map csv_row results.

(** The text of [output.csv]: every record is ended by CR LF. *)
Definition csv_text (results : list row) : string :=
  fold_right (fun record t => record ++ crlf ++ t) "" (csv_records results).

(** [r['words'] != 'ERROR'] *)
Definition words_not_error (r : row) : bool :=
  match words r with
  | PStr s => negb (String.eqb s "ERROR")
  | _ => true
  end.

(** [isinstance(r['words'], int)] *)
Definition words_is_int (r : row) : bool :=
  match words r with
  | PInt _ => true
  | _ => false
  end.

(** [int(r['words'])] on an integer cell. *)
Definition words_int (r : row) : Z :=
  match words r with
  | PInt n => n
  | _ => 0
  end.

(** Lines 137-138. *)
Definition successful_of (results : list row) : Z :=
  Py.sum (map (fun _ => 1) (filter words_not_error results)).

Definition total_words_of (results : list row) : Z :=
  Py.sum (map words_int (filter words_is_int results)).

(** What a run that reaches its end has produced. *)
Record output : Type := {
  results : list row;
  output_csv : string;
  processed : nat;
  successful : Z;
  total_words : Z
}.

Definition main (w : world) : result output :=
  let dc_files := get_dc_files (dc_path w) in
  results <- process_files w O dc_files [] ;;
  Ok {| results := results;
        output_csv := csv_text results;
        processed := List.length results;
        successful := successful_of results;
        total_words := total_words_of results |}.

(* ================================================================== *)
(** ** Specification-side notions *)
(* ================================================================== *)

(** The value a line assigns to the variable of [label]: the line carries
    the label and its second colon-separated field converts. *)
Definition line_value (lim : nat) (label line : string) : option Z :=
  if Py.contains label line then
    match parse_field lim line with
    | Ok n => Some n
    | Raise _ => None
    end
  else None.

(** The value assigned by the last line that assigns one. *)
Fixpoint last_value (lim : nat) (label : string) (lines : list string)
  : option Z :=
  match lines with
  | [] => None
  | l :: ls =>
      match last_value lim label ls with
      | Some v => Some v
      | None => line_value lim label l
      end
  end.

(** Reading a report back: its records are the pieces in front of each
    line feed, without their final carriage return. *)
Fixpoint drop_last (s : string) : string :=
  match s with
  | EmptyString => EmptyString
  | String c EmptyString => EmptyString
  | String c s' => String c (drop_last s')
  end.

Definition csv_read (t : string) : list string :=
  map drop_last (removelast (Py.split newline t)).

(** The number of decimal digits of [n]. *)
Definition decimal_digits (n : Z) : nat := String.length (Py.str (Z.abs n)).

(** The row recorded for a document whose count could not be obtained. *)
Definition error_row (section_num : Z) : row :=
  {| section := section_num; words := PStr "ERROR"; confidence := PInt 0 |}.

(** The discovered file [f] yields a section number and can be read. *)
Definition processable (lim : nat) (f : dir_entry) : Prop :=
  (exists n, section_number_of lim f = Ok n) /\ (exists c, text f = Some c).

(** Rows holding an integer word count, counted and summed as the claim
    words them. *)
Definition count_not_error (rows : list row) : nat :=
  List.length (filter words_not_error rows).

Fixpoint sum_int_words (rows : list row) : Z :=
  match rows with
  | [] => 0
  | r :: rows' =>
      match words r with
      | PInt n => n + sum_int_words rows'
      | _ => sum_int_words rows'
      end
  end.

(** Every character of [s] satisfies [P]. *)
Fixpoint all_chars (P : ascii -> bool) (s : string) : bool :=
  match s with
  | EmptyString => true
  | String c s' => P c && all_chars P s'
  end.

(** Character classes used to state what a string is free of. *)
Definition not_space (c : ascii) : bool := negb (Py.isspace c).
Definition not_char (x c : ascii) : bool := negb (Ascii.eqb c x).

(** The characters of [str(n)]: digits, after an optional minus sign. *)
Definition sign_or_digit (c : ascii) : bool := Py.isdigit c || Ascii.eqb c "-".

(** [label ++ " " ++ str(n)], for a label that ends with its only colon. *)
Definition labelled_line (label : string) (n : Z) : string :=
  label ++ " " ++ Py.str n.

(** The first value if there is one, else the second. *)
Definition or_else (a b : option Z) : option Z :=
  match a with
  | Some v => Some v
  | None => b
  end.

(** [rows_for w k files rows]: [rows] are the rows of [files], file by
    file, the first file being the [k]-th of the run. *)
Inductive rows_for (w : world) : nat -> list dir_entry -> list row -> Prop :=
| rows_for_nil k : rows_for w k [] []
| rows_for_cons k f files r rows :
    process_file w k f = Ok r ->
    rows_for w (S k) files rows ->
    rows_for w k (f :: files) (r :: rows).

(** The order of two directory entries in the enumeration. *)
Definition name_le (f g : dir_entry) : Prop :=
  String.leb (name f) (name g) = true.

(** A name [dc<digits>.md] with exactly [k] digits. *)
Definition numbered_name (k : nat) (n : string) : Prop :=
  exists ds,
    n = "dc" ++ ds ++ ".md"
    /\ all_chars Py.isdigit ds = true
    /\ String.length ds = k.

(** [z] zeros, as padding in front of a number. *)
Fixpoint zeros (z : nat) : string :=
  match z with
  | O => EmptyString
  | S z' => String "0" (zeros z')
  end.

(** The characters a field may hold for [int(field.strip())] to succeed:
    digits, underscores, a sign, white space. *)
Definition numeral_or_space (c : ascii) : bool :=
  Py.isdigit c || Py.is_underscore c || Py.isspace c
  || Ascii.eqb c "-" || Ascii.eqb c "+".

(** The line carries one of the two labels. *)
Definition labelled (line : string) : bool :=
  Py.contains "WORD_COUNT:" line || Py.contains "CONFIDENCE:" line.

(** [r['words'] == 'ERROR'] *)
Definition words_is_error (r : row) : bool := negb (words_not_error r).

(** The cells a recorded row holds. *)
Definition recorded_shape (r : row) : Prop :=
  ((exists v, words r = PInt v) \/ words r = PStr "ERROR")
  /\ (exists c, confidence r = PInt c).

(* ================================================================== *)
(** ** Sample runs *)
(* ================================================================== *)

Definition file (n content : string) : dir_entry :=
  {| name := n; text := Some content |}.

(** A service that answers its [k]-th call with the [k]-th outcome. *)
Definition replies (outcomes : list api_outcome) (k : nat) (_ : string)
  : api_outcome :=
  nth k outcomes ApiRaises.

Definition reply (content : string) : api_outcome := ApiResponse [Some content].

Definition world_of (files : list dir_entry) (outcomes : list api_outcome)
  : world :=
  {| max_str_digits := 4300;
     dc_path := Directory files;
     create := replies outcomes |}.

Definition dc001 : dir_entry := file "dc001.md" "I the Lord say unto thee".
Definition dc004 : dir_entry := file "dc004.md" "Now behold, a marvelous work".
Definition dcIntro : dir_entry := file "dcIntro.md" "Introduction".

(** Two sections, the first answered as asked, the second call failing. *)
Definition scenario_world : world :=
  world_of [dc004; dc001]
    [reply ("WORD_COUNT: 12" ++ nl ++ "CONFIDENCE: 90"); ApiRaises].

(** A file whose name matches [dc*.md] without carrying a number. *)
Definition intro_world : world :=
  world_of [dcIntro; dc001]
    [reply ("WORD_COUNT: 12" ++ nl ++ "CONFIDENCE: 90"); ApiRaises].

(** A reply with a second labelled line. *)
Definition overridden_reply : string :=
  "WORD_COUNT: 12" ++ nl ++ "TOTAL_WORD_COUNT: 15".

(** A reply that repeats both labels. *)
Definition repeated_reply : string :=
  "WORD_COUNT: 12" ++ nl ++ "CONFIDENCE: 90" ++ nl
  ++ "WORD_COUNT: 15" ++ nl ++ "CONFIDENCE: 80".


Definition no_confidence_world : world :=
  world_of [dc001] [reply "WORD_COUNT: 7"].

Definition no_word_count_world : world :=
  world_of [dc001] [reply "CONFIDENCE: 90"].

Definition no_directory_world : world :=
  {| max_str_digits := 4300; dc_path := NoDirectory; create := replies [] |}.

(* ================================================================== *)
(** ** The embedding on concrete inputs *)
(* ================================================================== *)

Example int_examples :
  map (Py.int 4300)
    ["12"; " 12 "; "+12"; "-12"; "- 12"; "1_000"; "_1"; "1_"; "1__0"; "";
     "+"; "-0"; "007"; "12.0"; "0x10"; "--1"]
  = [Some 12; Some 12; Some 12; Some (-12); None; Some 1000; None; None;
     None; None; None; Some 0; Some 7; None; None; None].
Proof. vm_compute. reflexivity. Qed.

Example stem_examples :
  map (fun n => Py.replace "dc" "" (stem n))
    ["dc001.md"; "dc.md"; "dc.1.md"; "dcIntro.md"; "dcdc1.md"; "ddcc1.md"]
  = ["001"; ""; ".1"; "Intro"; "1"; "dc1"].
Proof. vm_compute. reflexivity. Qed.

Example glob_examples :
  map glob_dc_md ["dc.md"; "dcmd"; "DC1.md"; "dc1.MD"; "dc1.md"; "xdc1.md"; "dc1.mdx"]
  = [true; false; false; false; true; false; false].
Proof. vm_compute. reflexivity. Qed.

Example sorted_examples :
  Py.sorted (fun n => n) ["dc10.md"; "dc2.md"; "dc001.md"]
  = ["dc001.md"; "dc10.md"; "dc2.md"].
Proof. vm_compute. reflexivity. Qed.

Example parse_examples :
  map (parse_response 4300)
    [ "WORD_COUNT: 12" ++ nl ++ "CONFIDENCE: 90";
      "WORD_COUNT: twelve" ++ nl ++ "CONFIDENCE: 90";
      "CONFIDENCE: 90%";
      "WORD_COUNT:12" ++ cr ++ nl ++ "CONFIDENCE:   0";
      "The count is 12" ]
  = [ (Some 12, Some 90); (None, Some 90); (None, None); (Some 12, Some 0);
      (None, None) ].
Proof. vm_compute. reflexivity. Qed.

(** The scenario of two sections, one answered and one failing: two rows,
    [1,12,90] and [4,ERROR,0], and a summary of 1 success out of 2. *)
Example scenario_run :
  main scenario_world
  = Ok {| results := [ {| section := 1; words := PInt 12; confidence := PInt 90 |};
                       {| section := 4; words := PStr "ERROR"; confidence := PInt 0 |} ];
          output_csv := "section,words,confidence" ++ crlf
                        ++ "1,12,90" ++ crlf ++ "4,ERROR,0" ++ crlf;
          processed := 2;
          successful := 1;
          total_words := 12 |}.
Proof. vm_compute. reflexivity. Qed.

(* ================================================================== *)
(** ** Characters and numerals *)
(* ================================================================== *)

Lemma digit_not_space c : Py.isdigit c = true -> Py.isspace c = false.
Proof.
  unfold Py.isdigit, Py.isspace. generalize (Py.ord c). intros n H.
  apply andb_true_iff in H. destruct H as [H1 H2].
  apply N.leb_le in H1. apply N.leb_le in H2.
  repeat rewrite orb_false_iff. repeat split;
    try (apply andb_false_iff; (left; apply N.leb_gt; lia) || (right; apply N.leb_gt; lia));
    apply N.eqb_neq; lia.
Qed.

Lemma digit_not_int_space c : Py.isdigit c = true -> Py.int_isspace c = false.
Proof.
  unfold Py.isdigit, Py.int_isspace. generalize (Py.ord c). intros n H.
  apply andb_true_iff in H. destruct H as [H1 H2].
  apply N.leb_le in H1. apply N.leb_le in H2.
  repeat rewrite orb_false_iff. repeat split;
    try (apply andb_false_iff; (left; apply N.leb_gt; lia) || (right; apply N.leb_gt; lia));
    apply N.eqb_neq; lia.
Qed.

Lemma digit_not_char c x :
  Py.isdigit c = true -> Py.isdigit x = false -> Ascii.eqb c x = false.
Proof.
  intros Hc Hx. apply Ascii.eqb_neq. intros ->. congruence.
Qed.

Lemma digit_not_underscore c : Py.isdigit c = true -> Py.is_underscore c = false.
Proof. intros H. apply digit_not_char; [exact H | reflexivity]. Qed.

Lemma all_chars_impl (P Q : ascii -> bool) s :
  (forall c, P c = true -> Q c = true) ->
  all_chars P s = true -> all_chars Q s = true.
Proof.
  intros HPQ. induction s as [|c s' IH]; [reflexivity|]. simpl. intros H.
  apply andb_true_iff in H. destruct H as [Hc H'].
  now rewrite (HPQ c Hc), (IH H').
Qed.

Lemma all_chars_app P s t :
  all_chars P (s ++ t) = all_chars P s && all_chars P t.
Proof.
  induction s as [|c s' IH]; [reflexivity|]. simpl.
  now rewrite IH, andb_assoc.
Qed.

Lemma lstrip_not_space s : all_chars not_space s = true -> Py.lstrip s = s.
Proof.
  destruct s as [|c s']; [reflexivity|]. simpl. unfold not_space. intros H.
  apply andb_true_iff in H. destruct H as [Hc _].
  apply negb_true_iff in Hc. now rewrite Hc.
Qed.

Lemma rstrip_not_space s : all_chars not_space s = true -> Py.rstrip s = s.
Proof.
  induction s as [|c s' IH]; [reflexivity|]. simpl. unfold not_space at 1.
  intros H. apply andb_true_iff in H. destruct H as [Hc H'].
  apply negb_true_iff in Hc. rewrite (IH H').
  destruct s'; [now rewrite Hc | reflexivity].
Qed.

Lemma strip_not_space s : all_chars not_space s = true -> Py.strip s = s.
Proof.
  intros H. unfold Py.strip. now rewrite (lstrip_not_space s H), rstrip_not_space.
Qed.

Lemma split_not_char x s : all_chars (not_char x) s = true -> Py.split x s = [s].
Proof.
  induction s as [|c s' IH]; [reflexivity|]. simpl. unfold not_char at 1.
  intros H. apply andb_true_iff in H. destruct H as [Hc H'].
  apply negb_true_iff in Hc. now rewrite Hc, (IH H').
Qed.

(** Splitting at the first separator. *)
Lemma split_app x s t :
  all_chars (not_char x) s = true ->
  Py.split x (s ++ String x t) = s :: Py.split x t.
Proof.
  induction s as [|c s' IH]; simpl.
  - intros _. now rewrite Ascii.eqb_refl.
  - unfold not_char at 1. intros H. apply andb_true_iff in H.
    destruct H as [Hc H']. apply negb_true_iff in Hc. now rewrite Hc, (IH H').
Qed.

Section DigitStrings.

Variable s : string.
Hypothesis Hs : all_chars Py.isdigit s = true.

Lemma digits_int_lstrip : Py.int_lstrip s = s.
Proof.
  destruct s as [|c s']; [reflexivity|]. simpl in *.
  apply andb_true_iff in Hs. destruct Hs as [Hc _].
  now rewrite (digit_not_int_space c Hc).
Qed.

Lemma digits_span : Py.span_numeral s = (s, EmptyString).
Proof.
  revert Hs. induction s as [|c s' IH]; [reflexivity|]. simpl. intros H.
  apply andb_true_iff in H. destruct H as [Hc H']. now rewrite Hc, (IH H').
Qed.

Lemma digits_underscores_ok : Py.underscores_ok false s = true.
Proof.
  revert Hs. induction s as [|c s' IH]; [reflexivity|]. simpl. intros H.
  apply andb_true_iff in H. destruct H as [Hc H'].
  now rewrite (digit_not_underscore c Hc), (IH H').
Qed.

Lemma digits_numeral_ok : s <> EmptyString -> Py.numeral_ok s = true.
Proof.
  intros Hne. pose proof digits_underscores_ok as Hu.
  destruct s as [|c s']; [congruence|]. unfold Py.numeral_ok. rewrite Hu.
  simpl in Hs. apply andb_true_iff in Hs. destruct Hs as [Hc _].
  now rewrite (digit_not_underscore c Hc).
Qed.

Lemma digits_count : Py.count_digits s = String.length s.
Proof.
  revert Hs. induction s as [|c s' IH]; [reflexivity|]. simpl. intros H.
  apply andb_true_iff in H. destruct H as [Hc H'].
  now rewrite (digit_not_underscore c Hc), (IH H').
Qed.

End DigitStrings.

(** The decimal rendering of an unsigned number: digits only, and [int]'s
    accumulation loop reads back the number. *)

Lemma uint_all_digits d :
  all_chars Py.isdigit (NilEmpty.string_of_uint d) = true.
Proof. induction d; simpl; auto. Qed.

Lemma uint_nonempty d :
  d <> Decimal.Nil -> NilEmpty.string_of_uint d <> EmptyString.
Proof. destruct d; simpl; congruence. Qed.

Ltac read_digit :=
  cbn [NilEmpty.string_of_uint Py.digits_value Pos.of_uint_acc Pos.of_uint];
  match goal with
  | |- context [Py.is_underscore ?c] => change (Py.is_underscore c) with false
  end;
  cbv iota;
  match goal with
  | |- context [Py.digit_value ?c] =>
      let v := eval vm_compute in (Py.digit_value c) in
      change (Py.digit_value c) with v
  end.

Lemma uint_value_acc d acc :
  Py.digits_value (NilEmpty.string_of_uint d) (Z.pos acc)
  = Z.pos (Pos.of_uint_acc d acc).
Proof.
  revert acc. induction d; intros acc; [reflexivity | ..];
    read_digit; rewrite <- IHd; f_equal; lia.
Qed.

Lemma uint_value d :
  Py.digits_value (NilEmpty.string_of_uint d) 0 = Z.of_N (Pos.of_uint d).
Proof.
  induction d; [reflexivity | read_digit; exact IHd | ..];
    read_digit; change (Z.of_N (N.pos ?p)) with (Z.pos p);
    rewrite <- uint_value_acc; reflexivity.
Qed.

(** [int] of a string of digits that needs no stripping. *)
Lemma int_of_digits lim s :
  all_chars Py.isdigit s = true -> s <> EmptyString ->
  Py.too_many_digits lim (String.length s) = false ->
  Py.int lim s = Some (Py.digits_value s 0)
  /\ Py.int lim (String "-" s) = Some (- Py.digits_value s 0).
Proof.
  intros Hd Hne Hlim.
  assert (Hfirst : exists c s', s = String c s' /\ Py.isdigit c = true).
  { destruct s as [|c s']; [congruence|]. simpl in Hd.
    apply andb_true_iff in Hd. destruct Hd as [Hc _]. eauto. }
  destruct Hfirst as (c & s' & -> & Hc).
  assert (Hminus : Ascii.eqb c "-" = false) by (now apply digit_not_char).
  assert (Hplus : Ascii.eqb c "+" = false) by (now apply digit_not_char).
  split.
  - unfold Py.int, Py.split_sign. rewrite (digits_int_lstrip _ Hd), Hminus, Hplus.
    rewrite (digits_span _ Hd), (digits_numeral_ok _ Hd Hne),
      (digits_count _ Hd), Hlim. reflexivity.
  - unfold Py.int, Py.split_sign. cbn [Py.int_lstrip].
    change (Py.int_isspace "-") with false. cbv iota.
    change (Ascii.eqb "-" "-") with true. cbv iota.
    rewrite (digits_span _ Hd), (digits_numeral_ok _ Hd Hne),
      (digits_count _ Hd), Hlim. reflexivity.
Qed.

(** [str(n)] is the sign and the digits of [|n|]. *)
Lemma str_pos p :
  Py.str (Z.pos p) = NilEmpty.string_of_uint (Pos.to_uint p).
Proof.
  unfold Py.str. simpl Z.to_int.
  unfold NilZero.string_of_int, NilZero.string_of_uint.
  pose proof (Unsigned.to_uint_nonnil p) as Hnn.
  destruct (Pos.to_uint p); congruence.
Qed.

Lemma str_neg p : Py.str (Z.neg p) = String "-" (Py.str (Z.pos p)).
Proof.
  rewrite str_pos. unfold Py.str. simpl Z.to_int.
  unfold NilZero.string_of_int, NilZero.string_of_uint.
  pose proof (Unsigned.to_uint_nonnil p) as Hnn.
  destruct (Pos.to_uint p); congruence.
Qed.

Lemma str_abs_digits n :
  all_chars Py.isdigit (Py.str (Z.abs n)) = true
  /\ Py.str (Z.abs n) <> EmptyString
  /\ Py.digits_value (Py.str (Z.abs n)) 0 = Z.abs n
  /\ Py.str n = if n <? 0 then String "-" (Py.str (Z.abs n)) else Py.str (Z.abs n).
Proof.
  assert (Hpos : forall p,
    all_chars Py.isdigit (Py.str (Z.pos p)) = true
    /\ Py.str (Z.pos p) <> EmptyString
    /\ Py.digits_value (Py.str (Z.pos p)) 0 = Z.pos p).
  { intros p. rewrite str_pos. split; [apply uint_all_digits | split].
    - apply uint_nonempty, Unsigned.to_uint_nonnil.
    - rewrite uint_value, Unsigned.of_to. reflexivity. }
  destruct n as [|p|p]; simpl Z.abs.
  - repeat split; discriminate.
  - destruct (Hpos p) as (H1 & H2 & H3). repeat split; assumption.
  - destruct (Hpos p) as (H1 & H2 & H3). repeat split; try assumption.
Qed.

(** [int(str(n))] is [n], unless the interpreter refuses the length. *)
Lemma int_str lim n :
  Py.too_many_digits lim (decimal_digits n) = false ->
  Py.int lim (Py.str n) = Some n.
Proof.
  intros Hlim. destruct (str_abs_digits n) as (Hd & Hne & Hv & Hs).
  destruct (int_of_digits lim _ Hd Hne Hlim) as [Hpos Hneg].
  rewrite Hs. destruct (n <? 0) eqn:E.
  - rewrite Hneg, Hv. apply Z.ltb_lt in E. f_equal. lia.
  - rewrite Hpos, Hv. apply Z.ltb_ge in E. f_equal. lia.
Qed.

Lemma str_chars n : all_chars sign_or_digit (Py.str n) = true.
Proof.
  destruct (str_abs_digits n) as (Hd & _ & _ & Hs). rewrite Hs.
  assert (H : all_chars sign_or_digit (Py.str (Z.abs n)) = true).
  { apply (all_chars_impl Py.isdigit); [|exact Hd].
    intros c Hc. unfold sign_or_digit. now rewrite Hc. }
  destruct (n <? 0); [simpl; exact H | exact H].
Qed.

Lemma sign_or_digit_not_space c : sign_or_digit c = true -> not_space c = true.
Proof.
  unfold sign_or_digit, not_space. intros H. apply orb_true_iff in H.
  destruct H as [H|H].
  - now rewrite (digit_not_space c H).
  - apply Ascii.eqb_eq in H. now subst c.
Qed.

Lemma sign_or_digit_not_char x c :
  sign_or_digit x = false -> sign_or_digit c = true -> not_char x c = true.
Proof.
  unfold not_char. intros Hx Hc. apply negb_true_iff, Ascii.eqb_neq.
  intros ->. congruence.
Qed.

(** *** The labelled line the prompt asks for *)

Lemma append_assoc (a b c : string) : (a ++ b) ++ c = a ++ (b ++ c).
Proof. induction a as [|x a IH]; simpl; [reflexivity | now rewrite IH]. Qed.

Lemma parse_field_labelled lim name n :
  all_chars (not_char ":") name = true ->
  Py.too_many_digits lim (decimal_digits n) = false ->
  parse_field lim (labelled_line (name ++ ":") n) = Ok n.
Proof.
  intros Hname Hlim. unfold parse_field, labelled_line.
  rewrite append_assoc. cbn [String.append].
  rewrite (split_app ":" name _ Hname).
  assert (Hsp : Py.split ":" (String " " (Py.str n)) = [String " " (Py.str n)]).
  { apply split_not_char. simpl. apply (all_chars_impl sign_or_digit).
    - intros c. apply sign_or_digit_not_char. reflexivity.
    - apply str_chars. }
  rewrite Hsp. cbn [nth_error].
  assert (Hst : Py.strip (String " " (Py.str n)) = Py.str n).
  { unfold Py.strip. cbn [Py.lstrip]. change (Py.isspace " ") with true.
    cbv iota. apply strip_not_space.
    apply (all_chars_impl sign_or_digit); [apply sign_or_digit_not_space|].
    apply str_chars. }
  rewrite Hst, (int_str lim n Hlim). reflexivity.
Qed.

Lemma contains_prefix label rest : Py.contains label (label ++ rest) = true.
Proof.
  assert (H : String.prefix label (label ++ rest) = true).
  { induction label as [|c l IH]; simpl.
    - now destruct rest.
    - destruct (ascii_dec c c); [exact IH | congruence]. }
  destruct (label ++ rest); simpl; simpl in H; now rewrite H.
Qed.

Lemma line_value_labelled lim name n :
  all_chars (not_char ":") name = true ->
  Py.too_many_digits lim (decimal_digits n) = false ->
  line_value lim (name ++ ":") (labelled_line (name ++ ":") n) = Some n.
Proof.
  intros Hname Hlim. unfold line_value.
  rewrite (parse_field_labelled lim name n Hname Hlim).
  unfold labelled_line at 1. now rewrite contains_prefix.
Qed.

(** *** The scan of the reply *)

Lemma update_field_value lim label line v :
  update_field lim label line v
  = match line_value lim label line with
    | Some n => Some n
    | None => v
    end.
Proof.
  unfold update_field, line_value.
  destruct (Py.contains label line); [|reflexivity].
  now destruct (parse_field lim line).
Qed.

Lemma scan_lines lim lines word_count confidence :
  fold_left (scan_line lim) lines (word_count, confidence)
  = (or_else (last_value lim "WORD_COUNT:" lines) word_count,
     or_else (last_value lim "CONFIDENCE:" lines) confidence).
Proof.
  revert word_count confidence.
  induction lines as [|l ls IH]; intros wc cf; [reflexivity|].
  cbn [fold_left scan_line last_value]. rewrite IH, !update_field_value.
  f_equal.
  - destruct (last_value lim "WORD_COUNT:" ls); [reflexivity|].
    now destruct (line_value lim "WORD_COUNT:" l).
  - destruct (last_value lim "CONFIDENCE:" ls); [reflexivity|].
    now destruct (line_value lim "CONFIDENCE:" l).
Qed.

Lemma parse_response_last lim txt :
  parse_response lim txt
  = (last_value lim "WORD_COUNT:" (reply_lines txt),
     last_value lim "CONFIDENCE:" (reply_lines txt)).
Proof.
  unfold parse_response. rewrite scan_lines.
  f_equal; match goal with |- or_else ?a None = _ => now destruct a end.
Qed.

Lemma last_value_none lim label lines :
  Forall (fun l => line_value lim label l = None) lines ->
  last_value lim label lines = None.
Proof.
  induction 1 as [|l ls Hl _ IH]; [reflexivity|]. simpl. now rewrite IH.
Qed.

Lemma last_value_app lim label pre l post v :
  line_value lim label l = Some v ->
  Forall (fun l' => line_value lim label l' = None) post ->
  last_value lim label (pre ++ l :: post) = Some v.
Proof.
  intros Hl Hpost. induction pre as [|p pre IH]; simpl.
  - now rewrite (last_value_none lim label post Hpost).
  - now rewrite IH.
Qed.

(* ================================================================== *)
(** ** The loop of [main] *)
(* ================================================================== *)

Lemma app_cons_assoc {A : Type} (l : list A) (x : A) (l' : list A) :
  ((l ++ [x]) ++ l' = l ++ x :: l')%list.
Proof. now rewrite <- app_assoc. Qed.

Lemma process_files_ok w files k acc out :
  process_files w k files acc = Ok out <->
  exists rows, out = (acc ++ rows)%list /\ rows_for w k files rows.
Proof.
  revert k acc. induction files as [|f fs IH]; intros k acc; simpl.
  - split.
    + intros [= <-]. exists []. rewrite app_nil_r. split; [reflexivity | constructor].
    + intros (rows & -> & H). inversion H. now rewrite app_nil_r.
  - destruct (process_file w k f) as [r|e] eqn:E; simpl.
    + rewrite IH. split.
      * intros (rows & -> & H). exists (r :: rows).
        split; [apply app_cons_assoc | now constructor].
      * intros (rows & -> & H). inversion H; subst.
        assert (r0 = r) by congruence. subst r0.
        eexists. split; [symmetry; apply app_cons_assoc | assumption].
    + split; [discriminate|]. intros (rows & _ & H). inversion H; congruence.
Qed.

Lemma rows_for_length w k files rows :
  rows_for w k files rows -> List.length rows = List.length files.
Proof. induction 1; simpl; congruence. Qed.

Lemma rows_for_nth w k files rows :
  rows_for w k files rows ->
  forall i f, nth_error files i = Some f ->
  exists r, nth_error rows i = Some r /\ process_file w (k + i) f = Ok r.
Proof.
  induction 1 as [|k f files r rows Hr _ IH]; intros i g Hi.
  - destruct i; discriminate.
  - destruct i as [|i]; simpl in Hi.
    + injection Hi as <-. exists r. now rewrite Nat.add_0_r.
    + destruct (IH i g Hi) as (r' & H1 & H2). exists r'.
      split; [exact H1|]. now rewrite Nat.add_succ_r.
Qed.

Lemma rows_for_in w k files rows :
  rows_for w k files rows ->
  forall r, In r rows ->
  exists i f, In f files /\ process_file w i f = Ok r.
Proof.
  induction 1 as [|k f files r rows Hr _ IH]; intros r' Hin; [destruct Hin|].
  destruct Hin as [<-|Hin].
  - exists k, f. split; [now left | exact Hr].
  - destruct (IH r' Hin) as (i & g & Hg & Hp). exists i, g.
    split; [now right | exact Hp].
Qed.

Lemma process_file_processable w k f :
  processable (max_str_digits w) f -> exists r, process_file w k f = Ok r.
Proof.
  intros [[n Hn] [c Hc]]. unfold process_file, read_text.
  rewrite Hn, Hc. simpl. eauto.
Qed.

Lemma rows_for_total w files :
  Forall (processable (max_str_digits w)) files ->
  forall k, exists rows, rows_for w k files rows.
Proof.
  induction 1 as [|f fs Hf _ IH]; intros k.
  - exists []. constructor.
  - destruct (process_file_processable w k f Hf) as [r Hr].
    destruct (IH (S k)) as [rows Hrows]. exists (r :: rows). now constructor.
Qed.

(** The section number of a row is the one extracted from its file. *)
Lemma process_file_section w k f r :
  process_file w k f = Ok r ->
  section_number_of (max_str_digits w) f = Ok (section r).
Proof.
  unfold process_file.
  destruct (section_number_of (max_str_digits w) f) as [n|e]; [|discriminate].
  simpl. destruct (read_text f) as [c|e]; [|discriminate]. simpl.
  intros [= <-]. unfold make_row.
  destruct (count_savior_words _ _ _ _) as [[wc|] cf]; reflexivity.
Qed.

Lemma process_file_bad_stem w k f :
  section_number_of (max_str_digits w) f = Raise ValueError ->
  process_file w k f = Raise ValueError.
Proof. intros H. unfold process_file. now rewrite H. Qed.

Lemma section_number_of_raise lim f e :
  section_number_of lim f = Raise e -> e = ValueError.
Proof.
  unfold section_number_of. destruct (Py.int lim _); [discriminate|].
  now intros [= <-].
Qed.

Lemma process_files_raise_in w files f :
  In f files ->
  section_number_of (max_str_digits w) f = Raise ValueError ->
  forall k acc, exists e, process_files w k files acc = Raise e.
Proof.
  intros Hin Hbad. induction files as [|g fs IH]; [destruct Hin|].
  intros k acc. simpl. destruct Hin as [->|Hin].
  - rewrite (process_file_bad_stem w k f Hbad). simpl. eauto.
  - destruct (process_file w k g) as [r|e]; simpl; [apply (IH Hin) | eauto].
Qed.

Lemma process_files_raise_first w pre f post :
  Forall (fun g => text g <> None) pre ->
  section_number_of (max_str_digits w) f = Raise ValueError ->
  forall k acc, process_files w k (pre ++ f :: post) acc = Raise ValueError.
Proof.
  intros Hpre Hbad. induction Hpre as [|g pre Hg _ IH]; intros k acc; simpl.
  - now rewrite (process_file_bad_stem w k f Hbad).
  - unfold process_file at 1.
    destruct (section_number_of (max_str_digits w) g) as [n|e] eqn:En; simpl.
    + unfold read_text. destruct (text g) as [c|]; [|congruence]. simpl.
      apply IH.
    + now rewrite (section_number_of_raise _ _ _ En).
Qed.

Lemma main_ok w out :
  main w = Ok out <->
  exists rows,
    rows_for w O (get_dc_files (dc_path w)) rows
    /\ out = {| results := rows;
                output_csv := csv_text rows;
                processed := List.length rows;
                successful := successful_of rows;
                total_words := total_words_of rows |}.
Proof.
  unfold main.
  destruct (process_files w O (get_dc_files (dc_path w)) []) as [rs|e] eqn:E; simpl.
  - apply process_files_ok in E. destruct E as (rows & -> & Hrows). simpl.
    split.
    + intros [= <-]. now exists rows.
    + intros (rows' & Hrows' & ->). f_equal.
      assert (Heq : rows' = rows); [|now subst].
      clear -Hrows Hrows'. revert rows' Hrows'.
      induction Hrows; intros rows' H'; inversion H'; subst; [reflexivity|].
      f_equal; [congruence | auto].
  - split; [discriminate|]. intros (rows & Hrows & _).
    assert (H : process_files w O (get_dc_files (dc_path w)) [] = Ok rows).
    { apply process_files_ok. now exists rows. }
    congruence.
Qed.

(** A run reaches the report writer only if every discovered file yields a
    section number and can be read. *)
Lemma rows_for_processable w k files rows :
  rows_for w k files rows -> Forall (processable (max_str_digits w)) files.
Proof.
  induction 1 as [|k f files r rows Hr _ IH]; constructor; [|exact IH].
  unfold process_file, read_text in Hr. unfold processable.
  destruct (section_number_of (max_str_digits w) f) as [n|e]; [|discriminate].
  simpl in Hr. destruct (text f) as [c|]; [|discriminate]. eauto.
Qed.

Lemma main_ok_processable w out :
  main w = Ok out ->
  Forall (processable (max_str_digits w)) (get_dc_files (dc_path w)).
Proof.
  intros H. apply main_ok in H. destruct H as (rows & Hrows & _).
  exact (rows_for_processable _ _ _ _ Hrows).
Qed.

Lemma main_results w out :
  main w = Ok out -> rows_for w O (get_dc_files (dc_path w)) (results out).
Proof.
  intros H. apply main_ok in H. destruct H as (rows & Hrows & ->). exact Hrows.
Qed.

Lemma filter_none {A : Type} (p : A -> bool) (l : list A) :
  Forall (fun x => p x = false) l -> filter p l = [].
Proof. induction 1 as [|x l Hx _ IH]; simpl; [reflexivity | now rewrite Hx]. Qed.

(** *** The summary *)

Lemma fold_left_add l a : fold_left Z.add l a = a + fold_left Z.add l 0.
Proof.
  revert a. induction l as [|x l IH]; intros a; simpl; [lia|].
  rewrite (IH (a + x)), (IH x). lia.
Qed.

Lemma sum_cons x l : Py.sum (x :: l) = x + Py.sum l.
Proof. unfold Py.sum. simpl. apply fold_left_add. Qed.

Lemma successful_count rows :
  successful_of rows = Z.of_nat (count_not_error rows).
Proof.
  unfold successful_of, count_not_error.
  induction (filter words_not_error rows) as [|r l IH]; [reflexivity|].
  cbn [map List.length]. rewrite sum_cons, IH. lia.
Qed.

Lemma total_words_sum rows : total_words_of rows = sum_int_words rows.
Proof.
  unfold total_words_of. induction rows as [|r rows IH]; [reflexivity|].
  cbn [filter sum_int_words]. unfold words_is_int at 1, words_int.
  destruct (words r) eqn:E; try exact IH.
  cbn [map]. rewrite sum_cons. unfold words_int in IH. rewrite IH, E.
  reflexivity.
Qed.

(* ================================================================== *)
(** ** The rows and the text of the report *)
(* ================================================================== *)

(** What [make_row] stores. *)
Lemma make_row_cells n r :
  ((exists v, words (make_row n r) = PInt v /\ fst r = Some v)
   \/ (words (make_row n r) = PStr "ERROR" /\ fst r = None
       /\ confidence (make_row n r) = PInt 0))
  /\ (exists c, confidence (make_row n r) = PInt c)
  /\ section (make_row n r) = n.
Proof.
  destruct r as [[v|] [c|]]; simpl.
  - split; [left; eauto|]. split; [|reflexivity]. destruct (c =? 0); simpl; eauto.
  - split; [left; eauto|]. split; [|reflexivity]. eauto.
  - split; [right; auto|]. split; [|reflexivity]. eauto.
  - split; [right; auto|]. split; [|reflexivity]. eauto.
Qed.

Lemma process_file_row w k f r :
  process_file w k f = Ok r ->
  exists n content,
    section_number_of (max_str_digits w) f = Ok n
    /\ text f = Some content
    /\ r = make_row n (count_savior_words (max_str_digits w) (create w k) n content).
Proof.
  unfold process_file, read_text.
  destruct (section_number_of (max_str_digits w) f) as [n|e]; [|discriminate].
  simpl. destruct (text f) as [c|]; [|discriminate]. simpl.
  intros [= <-]. eauto.
Qed.

Lemma process_file_cells w k f r :
  process_file w k f = Ok r ->
  ((exists v, words r = PInt v) \/ (words r = PStr "ERROR" /\ confidence r = PInt 0))
  /\ (exists c, confidence r = PInt c).
Proof.
  intros H. apply process_file_row in H. destruct H as (n & c & _ & _ & ->).
  destruct (make_row_cells n (count_savior_words (max_str_digits w) (create w k) n c))
    as ([(v & Hv & _)|(He & _ & H0)] & Hc & _); split; eauto.
Qed.

(** A record of the report holds no line feed. *)
Lemma str_no_newline n : all_chars (not_char newline) (Py.str n) = true.
Proof.
  apply (all_chars_impl sign_or_digit); [|apply str_chars].
  intros c. apply sign_or_digit_not_char. reflexivity.
Qed.

Lemma csv_row_no_newline r :
  ((exists v, words r = PInt v) \/ words r = PStr "ERROR") ->
  (exists c, confidence r = PInt c) ->
  all_chars (not_char newline) (csv_row r) = true.
Proof.
  intros Hw [c Hc]. unfold csv_row. rewrite Hc.
  rewrite !all_chars_app, !str_no_newline. simpl.
  destruct Hw as [[v ->]| ->]; simpl; now rewrite !str_no_newline.
Qed.

Lemma split_nonempty x s : Py.split x s <> [].
Proof.
  destruct s as [|c s']; simpl; [discriminate|].
  destruct (Ascii.eqb c x); [discriminate|].
  destruct (Py.split x s'); discriminate.
Qed.

Lemma drop_last_app s c : drop_last (s ++ String c EmptyString) = s.
Proof.
  induction s as [|a s' IH]; [reflexivity|]. cbn [String.append drop_last].
  rewrite IH. destruct (s' ++ String c EmptyString) eqn:E; [|reflexivity].
  destruct s'; discriminate.
Qed.

(** Reading back what was written gives the records written. *)
Lemma csv_read_written records :
  Forall (fun l => all_chars (not_char newline) l = true) records ->
  csv_read (fold_right (fun record t => record ++ crlf ++ t) "" records)
  = records.
Proof.
  unfold csv_read. induction 1 as [|l ls Hl _ IH]; [reflexivity|].
  cbn [fold_right]. unfold crlf at 1.
  replace (l ++ (cr ++ nl) ++ fold_right (fun record t => record ++ crlf ++ t) "" ls)
    with ((l ++ cr) ++ String newline
            (fold_right (fun record t => record ++ crlf ++ t) "" ls))
    by (now rewrite !append_assoc).
  rewrite split_app.
  - pose proof (split_nonempty newline
      (fold_right (fun record t => record ++ crlf ++ t) "" ls)) as Hne.
    cbn [removelast].
    destruct (Py.split newline (fold_right (fun record t => record ++ crlf ++ t) "" ls))
      as [|h t] eqn:E; [congruence|].
    cbn [map]. rewrite IH. unfold cr. now rewrite drop_last_app.
  - rewrite all_chars_app, Hl. reflexivity.
Qed.

Lemma csv_read_report w k files rows :
  rows_for w k files rows -> csv_read (csv_text rows) = csv_records rows.
Proof.
  intros H. unfold csv_text. apply csv_read_written. unfold csv_records.
  constructor; [reflexivity|]. apply Forall_map.
  induction H as [|k f files r rows Hr _ IH]; constructor; [|exact IH].
  destruct (process_file_cells w k f r Hr) as [Hw Hc].
  apply csv_row_no_newline; [|exact Hc].
  destruct Hw as [Hw|[Hw _]]; [now left | now right].
Qed.

(* ================================================================== *)
(** ** The claims *)
(* ================================================================== *)

(** C1, as stated, fails: a run over [dc001.md] and [dcIntro.md] discovers
    two files and raises [ValueError] in the loop, so no report with a row
    per discovered file is produced. *)
Lemma aborted_run_has_no_report :
  get_dc_files (dc_path intro_world) = [dc001; dcIntro]
  /\ main intro_world = Raise ValueError
  /\ ~ (exists out, main intro_world = Ok out
          /\ List.length (results out)
             = List.length (get_dc_files (dc_path intro_world))).
Proof.
  split; [reflexivity|]. split; [reflexivity|].
  intros (out & H & _). vm_compute in H. discriminate.
Qed.

(** C1, amended: in every run in which each discovered file yields a section
    number and can be read, [main] reaches the report writer; the results
    hold exactly one row per discovered file, in the order of the files, the
    [i]-th row being the row of the [i]-th file and carrying its section
    number; the report read back is the header followed by those rows.
    (By [main_ok_processable] these are all the runs that write a
    report.) *)
Theorem report_has_one_row_per_file (w : world) :
  Forall (processable (max_str_digits w)) (get_dc_files (dc_path w)) ->
  exists out,
    main w = Ok out
    /\ List.length (results out) = List.length (get_dc_files (dc_path w))
    /\ (forall i f,
          nth_error (get_dc_files (dc_path w)) i = Some f ->
          exists r,
            nth_error (results out) i = Some r
            /\ process_file w i f = Ok r
            /\ section_number_of (max_str_digits w) f = Ok (section r))
    /\ csv_read (output_csv out) = csv_header :: map csv_row (results out)
    /\ List.length (tl (csv_read (output_csv out)))
       = List.length (get_dc_files (dc_path w)).
Proof.
  intros Hall. destruct (rows_for_total w _ Hall O) as [rows Hrows].
  eexists. split; [apply main_ok; exists rows; split; [exact Hrows | reflexivity]|].
  cbn [results output_csv].
  pose proof (rows_for_length _ _ _ _ Hrows) as Hlen.
  pose proof (csv_read_report _ _ _ _ Hrows) as Hread.
  split; [exact Hlen|]. split; [|split].
  - intros i f Hi. destruct (rows_for_nth _ _ _ _ Hrows i f Hi) as (r & H1 & H2).
    exists r. split; [exact H1|]. split; [exact H2|].
    exact (process_file_section _ _ _ _ H2).
  - exact Hread.
  - rewrite Hread. unfold csv_records. cbn [tl]. now rewrite length_map.
Qed.

Lemma report_has_one_row_per_file_witness :
  exists out,
    main scenario_world = Ok out
    /\ List.length (results out)
       = List.length (get_dc_files (dc_path scenario_world))
    /\ (forall i f,
          nth_error (get_dc_files (dc_path scenario_world)) i = Some f ->
          exists r,
            nth_error (results out) i = Some r
            /\ process_file scenario_world i f = Ok r
            /\ section_number_of (max_str_digits scenario_world) f
               = Ok (section r))
    /\ csv_read (output_csv out) = csv_header :: map csv_row (results out)
    /\ List.length (tl (csv_read (output_csv out)))
       = List.length (get_dc_files (dc_path scenario_world)).
Proof.
  apply (report_has_one_row_per_file scenario_world).
  change (Forall (processable 4300) [dc001; dc004]).
  constructor; [|constructor; [|constructor]].
  - split; [exists 1; reflexivity | eexists; reflexivity].
  - split; [exists 4; reflexivity | eexists; reflexivity].
Defined.

(** C2: when the remote call of a document raises (in the call itself or in
    reading the reply), [count_savior_words] returns [(None, None)], the
    loop body raises nothing and yields the row [(section, 'ERROR', 0)], the
    loop goes on with the next file, and that row is the document's row in
    the results of a run that completes. *)
Theorem remote_failure_isolated (w : world) (k : nat) (f : dir_entry)
  (n : Z) (content : string) (e : exception) :
  section_number_of (max_str_digits w) f = Ok n ->
  text f = Some content ->
  response_text (create w k (prompt n content)) = Raise e ->
  count_savior_words (max_str_digits w) (create w k) n content = (None, None)
  /\ process_file w k f = Ok (error_row n)
  /\ (forall files acc,
        process_files w k (f :: files) acc
        = process_files w (S k) files (acc ++ [error_row n]))
  /\ (forall out,
        main w = Ok out ->
        nth_error (get_dc_files (dc_path w)) k = Some f ->
        nth_error (results out) k = Some (error_row n)).
Proof.
  intros Hn Hc He.
  assert (Hcount : count_savior_words (max_str_digits w) (create w k) n content
                   = (None, None)).
  { unfold count_savior_words, request_and_parse. now rewrite He. }
  assert (Hfile : process_file w k f = Ok (error_row n)).
  { unfold process_file, read_text. rewrite Hn, Hc. simpl. now rewrite Hcount. }
  split; [exact Hcount|]. split; [exact Hfile|]. split.
  - intros files acc. simpl. now rewrite Hfile.
  - intros out Hmain Hk. apply main_results in Hmain.
    destruct (rows_for_nth _ _ _ _ Hmain k f Hk) as (r & H1 & H2).
    simpl in H2. congruence.
Qed.

Lemma remote_failure_isolated_witness :
  count_savior_words 4300 (create scenario_world 1) 4
    "Now behold, a marvelous work" = (None, None)
  /\ process_file scenario_world 1 dc004 = Ok (error_row 4)
  /\ (forall files acc,
        process_files scenario_world 1 (dc004 :: files) acc
        = process_files scenario_world 2 files (acc ++ [error_row 4]))
  /\ (forall out,
        main scenario_world = Ok out ->
        nth_error (get_dc_files (dc_path scenario_world)) 1 = Some dc004 ->
        nth_error (results out) 1 = Some (error_row 4)).
Proof.
  apply (remote_failure_isolated scenario_world 1 dc004 4
           "Now behold, a marvelous work" APIError); reflexivity.
Defined.

(** C3, as stated, fails in two ways.  A reply that holds the well-formed
    line [WORD_COUNT: 12] and then the line [TOTAL_WORD_COUNT: 15] is
    parsed to [15]; and under the interpreter's default cap of 4300 digits
    the well-formed line whose integer is [10 ^ 4300] is parsed to
    [None]. *)
Lemma well_formed_line_not_returned :
  In (labelled_line "WORD_COUNT:" 12) (reply_lines (Py.strip overridden_reply))
  /\ fst (count_savior_words 4300 (replies [reply overridden_reply] 0) 1 "text")
     = Some 15
  /\ fst (count_savior_words 4300
            (replies [reply (labelled_line "WORD_COUNT:" (10 ^ 4300))] 0)
            1 "text")
     = None.
Proof.
  split; [left; reflexivity|]. split; vm_compute; reflexivity.
Qed.

(** C3, amended: when the reply holds the line [WORD_COUNT: <int>], no later
    line of the reply assigns a word count, and the integer is short enough
    for the interpreter to convert (always so up to 640 digits, and up to
    the cap beyond), the word count returned by [count_savior_words] is that
    integer. *)
Theorem word_count_of_well_formed_line (lim : nat)
  (call : string -> api_outcome) (section_number : Z) (content : string)
  (text : string) (others : list (option string))
  (pre post : list string) (n : Z) :
  call (prompt section_number content) = ApiResponse (Some text :: others) ->
  reply_lines (Py.strip text) = (pre ++ labelled_line "WORD_COUNT:" n :: post)%list ->
  Forall (fun l => line_value lim "WORD_COUNT:" l = None) post ->
  Py.too_many_digits lim (decimal_digits n) = false ->
  fst (count_savior_words lim call section_number content) = Some n.
Proof.
  intros Hcall Hlines Hpost Hlim.
  unfold count_savior_words, request_and_parse. rewrite Hcall. simpl.
  rewrite parse_response_last, Hlines. simpl.
  apply last_value_app; [|exact Hpost].
  apply (line_value_labelled lim "WORD_COUNT" n); [reflexivity | exact Hlim].
Qed.

Lemma word_count_of_well_formed_line_witness :
  fst (count_savior_words 4300
         (replies [reply ("WORD_COUNT: 12" ++ nl ++ "CONFIDENCE: 90")] 0)
         1 "text")
  = Some 12.
Proof.
  apply (word_count_of_well_formed_line 4300 _ 1 "text"
           ("WORD_COUNT: 12" ++ nl ++ "CONFIDENCE: 90") [] [] ["CONFIDENCE: 90"] 12).
  - reflexivity.
  - reflexivity.
  - repeat constructor.
  - reflexivity.
Defined.

(** C4, as stated, fails: in a reply that holds each label twice the
    integers of the first labelled lines are [12] and [90], and the parser
    returns [15] and [80]. *)
Lemma first_labelled_line_not_kept :
  reply_lines repeated_reply
  = ["WORD_COUNT: 12"; "CONFIDENCE: 90"; "WORD_COUNT: 15"; "CONFIDENCE: 80"]
  /\ line_value 4300 "WORD_COUNT:" "WORD_COUNT: 12" = Some 12
  /\ line_value 4300 "CONFIDENCE:" "CONFIDENCE: 90" = Some 90
  /\ parse_response 4300 repeated_reply = (Some 15, Some 80).
Proof. repeat split; vm_compute; reflexivity. Qed.

(** C4, amended: for each of the two labels, the parser's result is the
    integer of the LAST line that carries the label and whose field
    converts; an earlier such line, or a later labelled line whose field
    does not convert, does not change the result. *)
Theorem last_labelled_line_wins (lim : nat) (text : string)
  (pre post : list string) (l : string) (v : Z) :
  reply_lines text = (pre ++ l :: post)%list ->
  (line_value lim "WORD_COUNT:" l = Some v ->
   Forall (fun l' => line_value lim "WORD_COUNT:" l' = None) post ->
   fst (parse_response lim text) = Some v)
  /\ (line_value lim "CONFIDENCE:" l = Some v ->
      Forall (fun l' => line_value lim "CONFIDENCE:" l' = None) post ->
      snd (parse_response lim text) = Some v).
Proof.
  intros Hlines. rewrite parse_response_last, Hlines. simpl.
  split; intros Hl Hpost; now apply last_value_app.
Qed.

Lemma last_labelled_line_wins_witness :
  fst (parse_response 4300 repeated_reply) = Some 15.
Proof.
  apply (last_labelled_line_wins 4300 repeated_reply
           ["WORD_COUNT: 12"; "CONFIDENCE: 90"] ["CONFIDENCE: 80"]
           "WORD_COUNT: 15" 15).
  - reflexivity.
  - reflexivity.
  - repeat constructor.
Defined.




(** C6: when the remote call of a document succeeds and no line of the
    reply assigns a confidence, the confidence cell of that document's row
    is the integer [0]. *)
Theorem missing_confidence_recorded_as_zero (w : world) (out : output)
  (k : nat) (f : dir_entry) (n : Z) (content text0 : string)
  (others : list (option string)) :
  main w = Ok out ->
  nth_error (get_dc_files (dc_path w)) k = Some f ->
  section_number_of (max_str_digits w) f = Ok n ->
  text f = Some content ->
  create w k (prompt n content) = ApiResponse (Some text0 :: others) ->
  Forall (fun l => line_value (max_str_digits w) "CONFIDENCE:" l = None)
    (reply_lines (Py.strip text0)) ->
  exists r,
    nth_error (results out) k = Some r
    /\ section r = n
    /\ confidence r = PInt 0.
Proof.
  intros Hmain Hk Hn Hc Hcall Hnone. apply main_results in Hmain.
  destruct (rows_for_nth _ _ _ _ Hmain k f Hk) as (r & H1 & H2).
  exists r. split; [exact H1|]. simpl in H2.
  unfold process_file, read_text in H2. rewrite Hn, Hc in H2. simpl in H2.
  injection H2 as <-.
  unfold count_savior_words, request_and_parse. rewrite Hcall. simpl.
  rewrite parse_response_last, (last_value_none _ _ _ Hnone).
  unfold make_row. destruct (last_value _ "WORD_COUNT:" _); auto.
Qed.

Lemma missing_confidence_recorded_as_zero_witness :
  exists r,
    nth_error [ {| section := 1; words := PInt 7; confidence := PInt 0 |} ] 0
    = Some r
    /\ section r = 1
    /\ confidence r = PInt 0.
Proof.
  apply (missing_confidence_recorded_as_zero no_confidence_world
           {| results := [ {| section := 1; words := PInt 7; confidence := PInt 0 |} ];
              output_csv := csv_text
                [ {| section := 1; words := PInt 7; confidence := PInt 0 |} ];
              processed := 1; successful := 1; total_words := 7 |}
           0 dc001 1 "I the Lord say unto thee" "WORD_COUNT: 7" []).
  - reflexivity.
  - reflexivity.
  - reflexivity.
  - reflexivity.
  - reflexivity.
  - repeat constructor.
Defined.



(** C8: when the directory does not exist, or holds no name that matches
    [dc*.md], [get_dc_files] returns the empty list; [main] raises nothing,
    records no row whatever the service would answer, writes a report that
    consists of the header record, and reports 0 of 0 sections and a total
    of 0 words. *)
Theorem empty_enumeration_writes_header_only (w : world) :
  (dc_path w = NoDirectory
   \/ exists entries,
        dc_path w = Directory entries
        /\ Forall (fun f => glob_dc_md (name f) = false) entries) ->
  get_dc_files (dc_path w) = []
  /\ (forall service,
        main {| max_str_digits := max_str_digits w;
                dc_path := dc_path w;
                create := service |}
        = Ok {| results := [];
                output_csv := csv_header ++ crlf;
                processed := 0;
                successful := 0;
                total_words := 0 |})
  /\ csv_read (csv_header ++ crlf) = [csv_header].
Proof.
  intros Hdir.
  assert (Hfiles : get_dc_files (dc_path w) = []).
  { destruct Hdir as [-> | (entries & -> & Hnone)]; [reflexivity|].
    simpl. now rewrite (filter_none _ _ Hnone). }
  split; [exact Hfiles|]. split; [|reflexivity].
  intros service. unfold main. cbn [dc_path]. rewrite Hfiles. reflexivity.
Qed.

Lemma empty_enumeration_writes_header_only_witness :
  get_dc_files (dc_path no_directory_world) = []
  /\ (forall service,
        main {| max_str_digits := max_str_digits no_directory_world;
                dc_path := dc_path no_directory_world;
                create := service |}
        = Ok {| results := [];
                output_csv := csv_header ++ crlf;
                processed := 0;
                successful := 0;
                total_words := 0 |})
  /\ csv_read (csv_header ++ crlf) = [csv_header].
Proof.
  apply (empty_enumeration_writes_header_only no_directory_world).
  left. reflexivity.
Defined.

(** C9: when the remote call of a document succeeds and no line of the
    reply assigns a word count, that document's row is
    [(section, 'ERROR', 0)], whatever confidence the reply carries. *)
Theorem confidence_discarded_without_word_count (w : world) (out : output)
  (k : nat) (f : dir_entry) (n : Z) (content text0 : string)
  (others : list (option string)) :
  main w = Ok out ->
  nth_error (get_dc_files (dc_path w)) k = Some f ->
  section_number_of (max_str_digits w) f = Ok n ->
  text f = Some content ->
  create w k (prompt n content) = ApiResponse (Some text0 :: others) ->
  Forall (fun l => line_value (max_str_digits w) "WORD_COUNT:" l = None)
    (reply_lines (Py.strip text0)) ->
  nth_error (results out) k = Some (error_row n)
  /\ snd (count_savior_words (max_str_digits w) (create w k) n content)
     = last_value (max_str_digits w) "CONFIDENCE:" (reply_lines (Py.strip text0)).
Proof.
  intros Hmain Hk Hn Hc Hcall Hnone. apply main_results in Hmain.
  destruct (rows_for_nth _ _ _ _ Hmain k f Hk) as (r & H1 & H2).
  simpl in H2. unfold process_file, read_text in H2.
  rewrite Hn, Hc in H2. simpl in H2. injection H2 as <-.
  unfold count_savior_words, request_and_parse in *. rewrite Hcall in *.
  simpl in *. rewrite parse_response_last in *.
  rewrite (last_value_none _ _ _ Hnone) in H1. split; [exact H1 | reflexivity].
Qed.

Lemma confidence_discarded_without_word_count_witness :
  nth_error [error_row 1] 0 = Some (error_row 1)
  /\ snd (count_savior_words 4300 (create no_word_count_world 0) 1
            "I the Lord say unto thee")
     = last_value 4300 "CONFIDENCE:" (reply_lines (Py.strip "CONFIDENCE: 90")).
Proof.
  apply (confidence_discarded_without_word_count no_word_count_world
           {| results := [error_row 1];
              output_csv := csv_text [error_row 1];
              processed := 1; successful := 0; total_words := 0 |}
           0 dc001 1 "I the Lord say unto thee" "CONFIDENCE: 90" []).
  - reflexivity.
  - reflexivity.
  - reflexivity.
  - reflexivity.
  - reflexivity.
  - repeat constructor.
Defined.

(** C10: when a discovered file has a stem that, once every [dc] is
    removed, [int] does not convert, the extraction of its section number
    raises [ValueError], nothing catches it, and [main] ends with an
    exception without producing a report; the exception is that
    [ValueError] when the files sorted before it can be read. *)
Theorem bad_stem_aborts_run (w : world) (f : dir_entry) :
  In f (get_dc_files (dc_path w)) ->
  Py.int (max_str_digits w) (Py.replace "dc" "" (stem (name f))) = None ->
  section_number_of (max_str_digits w) f = Raise ValueError
  /\ (forall k, process_file w k f = Raise ValueError)
  /\ (exists e, main w = Raise e)
  /\ (forall pre post,
        get_dc_files (dc_path w) = (pre ++ f :: post)%list ->
        Forall (fun g => text g <> None) pre ->
        main w = Raise ValueError).
Proof.
  intros Hin Hint.
  assert (Hbad : section_number_of (max_str_digits w) f = Raise ValueError).
  { unfold section_number_of. now rewrite Hint. }
  split; [exact Hbad|]. split; [|split].
  - intros k. now apply process_file_bad_stem.
  - destruct (process_files_raise_in w _ f Hin Hbad O []) as [e He].
    exists e. unfold main. now rewrite He.
  - intros pre post Hfiles Hpre. unfold main. rewrite Hfiles.
    now rewrite (process_files_raise_first w pre f post Hpre Hbad).
Qed.

Lemma bad_stem_aborts_run_witness :
  glob_dc_md "dcIntro.md" = true
  /\ section_number_of (max_str_digits intro_world) dcIntro = Raise ValueError
  /\ (forall k, process_file intro_world k dcIntro = Raise ValueError)
  /\ (exists e, main intro_world = Raise e)
  /\ (forall pre post,
        get_dc_files (dc_path intro_world) = (pre ++ dcIntro :: post)%list ->
        Forall (fun g => text g <> None) pre ->
        main intro_world = Raise ValueError).
Proof.
  split; [reflexivity|].
  apply (bad_stem_aborts_run intro_world dcIntro).
  - right. left. reflexivity.
  - reflexivity.
Defined.

(* ================================================================== *)
(** ** Further properties: the enumeration *)
(* ================================================================== *)

Lemma string_compare_le_trans a b c :
  String.compare a b <> Gt -> String.compare b c <> Gt ->
  String.compare a c <> Gt.
Proof.
  revert b c. induction a as [|x a IH]; intros [|y b] [|z c]; simpl;
    try congruence.
  unfold Ascii.compare.
  destruct (N.compare_spec (N_of_ascii x) (N_of_ascii y)) as [Hxy|Hxy|Hxy];
    destruct (N.compare_spec (N_of_ascii y) (N_of_ascii z)) as [Hyz|Hyz|Hyz];
    destruct (N.compare_spec (N_of_ascii x) (N_of_ascii z)) as [Hxz|Hxz|Hxz];
    try congruence; try lia.
  apply IH.
Qed.

Lemma string_leb_trans a b c :
  String.leb a b = true -> String.leb b c = true -> String.leb a c = true.
Proof.
  unfold String.leb. intros Hab Hbc.
  pose proof (string_compare_le_trans a b c) as H.
  destruct (String.compare a b), (String.compare b c), (String.compare a c);
    try reflexivity; try discriminate; exfalso; apply H; congruence.
Qed.

Lemma string_leb_false a b : String.leb a b = false -> String.leb b a = true.
Proof.
  intros H. destruct (String.leb_total a b) as [H1|H1]; congruence.
Qed.

Section InsertionSort.

Variable A : Type.
Variable key : A -> string.

Let le (x y : A) : Prop := String.leb (key x) (key y) = true.

Lemma insert_sorted_perm x l : Permutation (x :: l) (Py.insert_sorted key x l).
Proof.
  induction l as [|y l IH]; simpl; [reflexivity|].
  destruct (String.leb (key x) (key y)); [reflexivity|].
  rewrite perm_swap. now constructor.
Qed.

Lemma sorted_perm l : Permutation l (Py.sorted key l).
Proof.
  induction l as [|x l IH]; simpl; [constructor|].
  rewrite <- insert_sorted_perm. now constructor.
Qed.

Lemma insert_sorted_sorted x l :
  StronglySorted le l -> StronglySorted le (Py.insert_sorted key x l).
Proof.
  induction 1 as [|y l Hl IH Hy]; simpl.
  - repeat constructor.
  - destruct (String.leb (key x) (key y)) eqn:E.
    + constructor; [now constructor|]. constructor; [exact E|].
      eapply Forall_impl; [|exact Hy]. intros z Hz.
      exact (string_leb_trans _ _ _ E Hz).
    + constructor; [exact IH|].
      apply (Permutation_Forall (insert_sorted_perm x l)).
      constructor; [now apply string_leb_false | exact Hy].
Qed.

Lemma sorted_sorted l : StronglySorted le (Py.sorted key l).
Proof.
  induction l as [|x l IH]; simpl; [constructor|].
  now apply insert_sorted_sorted.
Qed.

(** Two sorted arrangements of the same elements are the same list, when
    no two elements share a key. *)
Lemma sorted_unique l1 l2 :
  (forall x y, In x l1 -> In y l1 -> key x = key y -> x = y) ->
  Permutation l1 l2 ->
  StronglySorted le l1 -> StronglySorted le l2 -> l1 = l2.
Proof.
  revert l2. induction l1 as [|a l1 IH]; intros l2 Hinj Hperm H1 H2.
  - now apply Permutation_nil in Hperm.
  - destruct l2 as [|b l2].
    { symmetry in Hperm. now apply Permutation_nil in Hperm. }
    inversion H1 as [|? ? H1t Ha]; subst. inversion H2 as [|? ? H2t Hb]; subst.
    assert (Hab : a = b).
    { assert (Hina : In a (b :: l2)) by (apply (Permutation_in _ Hperm); now left).
      assert (Hinb : In b (a :: l1)).
      { apply (Permutation_in _ (Permutation_sym Hperm)). now left. }
      destruct Hina as [->|Hina]; [reflexivity|].
      destruct Hinb as [->|Hinb]; [reflexivity|].
      apply Hinj; [now left | now right |].
      apply String.leb_antisym.
      - rewrite Forall_forall in Ha. exact (Ha b Hinb).
      - rewrite Forall_forall in Hb. exact (Hb a Hina). }
    subst b. f_equal. apply IH; try assumption.
    + intros x y Hx Hy. apply Hinj; now right.
    + exact (Permutation_cons_inv Hperm).
Qed.

End InsertionSort.

Lemma filter_perm {A : Type} (p : A -> bool) (l1 l2 : list A) :
  Permutation l1 l2 -> Permutation (filter p l1) (filter p l2).
Proof.
  induction 1 as [|x l l0 _ IH|x y l|l l0 l3 _ IH1 _ IH2]; simpl.
  - constructor.
  - destruct (p x); [now constructor | exact IH].
  - destruct (p x), (p y); try reflexivity. apply perm_swap.
  - now transitivity (filter p l0).
Qed.

Lemma nodup_map_injective {A B : Type} (f : A -> B) (l : list A) :
  NoDup (map f l) ->
  forall x y, In x l -> In y l -> f x = f y -> x = y.
Proof.
  induction l as [|a l IH]; intros Hnd x y Hx Hy Hxy; [destruct Hx|].
  simpl in Hnd. inversion Hnd as [|? ? Hnot Hnd0]; subst.
  destruct Hx as [->|Hx], Hy as [->|Hy].
  - reflexivity.
  - exfalso. apply Hnot. rewrite Hxy. now apply in_map.
  - exfalso. apply Hnot. rewrite <- Hxy. now apply in_map.
  - now apply IH.
Qed.

(** X1: [get_dc_files] returns the entries of the directory whose names
    match [dc*.md], each as often as the directory lists it and nothing
    else, arranged in ascending code-point order of the names. *)
Theorem get_dc_files_sorted_selection (entries : list dir_entry) :
  Permutation (filter (fun f => glob_dc_md (name f)) entries)
    (get_dc_files (Directory entries))
  /\ StronglySorted name_le (get_dc_files (Directory entries))
  /\ (forall f, In f (get_dc_files (Directory entries))
                <-> In f entries /\ glob_dc_md (name f) = true).
Proof.
  simpl. split; [apply sorted_perm|]. split; [apply sorted_sorted|].
  intros f. split; intros H.
  - apply (Permutation_in _ (Permutation_sym (sorted_perm _ name _))) in H.
    apply filter_In in H. exact H.
  - apply (Permutation_in _ (sorted_perm _ name _)).
    apply filter_In. exact H.
Qed.

(** X2: the enumeration does not depend on the order in which the
    directory lists its entries, names being distinct. *)
Theorem get_dc_files_listing_order (entries1 entries2 : list dir_entry) :
  NoDup (map name entries1) ->
  Permutation entries1 entries2 ->
  get_dc_files (Directory entries1) = get_dc_files (Directory entries2).
Proof.
  intros Hnd Hperm. simpl.
  apply (sorted_unique _ name); try apply sorted_sorted.
  - intros x y Hx Hy. apply (nodup_map_injective name entries1 Hnd).
    + apply (Permutation_in _ (Permutation_sym (sorted_perm _ name _))) in Hx.
      now apply filter_In in Hx.
    + apply (Permutation_in _ (Permutation_sym (sorted_perm _ name _))) in Hy.
      now apply filter_In in Hy.
  - rewrite <- !sorted_perm. now apply filter_perm.
Qed.

Lemma get_dc_files_listing_order_witness :
  get_dc_files (Directory [dc004; dcIntro; dc001])
  = get_dc_files (Directory [dc001; dc004; dcIntro]).
Proof.
  apply (get_dc_files_listing_order [dc004; dcIntro; dc001] [dc001; dc004; dcIntro]).
  - repeat constructor; simpl; intuition discriminate.
  - apply perm_trans with (dc004 :: dc001 :: [dcIntro]).
    + apply perm_skip. apply perm_swap.
    + apply perm_swap.
Defined.

(* ================================================================== *)
(** ** Further properties: section numbers *)
(* ================================================================== *)

Lemma length_append (x y : string) :
  String.length (x ++ y) = (String.length x + String.length y)%nat.
Proof. induction x as [|c x IH]; simpl; [reflexivity | now rewrite IH]. Qed.

Lemma substring_all (y : string) : String.substring 0 (String.length y) y = y.
Proof. induction y as [|c y IH]; simpl; [reflexivity | now rewrite IH]. Qed.

Lemma substring_prefix (x y : string) :
  String.substring 0 (String.length x) (x ++ y) = x.
Proof.
  induction x as [|c x IH]; simpl; [now destruct y | now rewrite IH].
Qed.

Lemma substring_suffix (x y : string) :
  String.substring (String.length x) (String.length y) (x ++ y) = y.
Proof.
  induction x as [|c x IH]; simpl; [apply substring_all | exact IH].
Qed.

Lemma rfind_none c t : all_chars (not_char c) t = true -> Py.rfind c t = None.
Proof.
  induction t as [|a t IH]; [reflexivity|]. simpl. unfold not_char at 1.
  intros H. apply andb_true_iff in H. destruct H as [Ha Ht].
  apply negb_true_iff in Ha. now rewrite (IH Ht), Ha.
Qed.

Lemma rfind_last c x t :
  all_chars (not_char c) t = true ->
  Py.rfind c (x ++ String c t) = Some (String.length x).
Proof.
  intros Ht. induction x as [|a x IH]; simpl.
  - now rewrite (rfind_none c t Ht), Ascii.eqb_refl.
  - now rewrite IH.
Qed.

(** The stem of [x.md]. *)
Lemma stem_md x : x <> EmptyString -> stem (x ++ ".md") = x.
Proof.
  intros Hne. unfold stem.
  change (x ++ ".md") with (x ++ String "." "md").
  rewrite (rfind_last "." x "md" eq_refl), length_append.
  assert (Hlen : (0 < String.length x)%nat).
  { destruct x; [congruence | simpl; lia]. }
  replace ((0 <? String.length x)%nat) with true
    by (symmetry; now apply Nat.ltb_lt).
  replace ((String.length x <? String.length x + String.length (String "." "md") - 1)%nat)
    with true by (symmetry; apply Nat.ltb_lt; simpl; lia).
  simpl andb. apply substring_prefix.
Qed.

Lemma glob_dc_md_numbered ds : glob_dc_md ("dc" ++ ds ++ ".md") = true.
Proof.
  unfold glob_dc_md.
  assert (H1 : String.prefix "dc" ("dc" ++ ds ++ ".md") = true).
  { simpl. now destruct (ds ++ ".md"). }
  assert (H2 : Py.endswith ".md" ("dc" ++ ds ++ ".md") = true).
  { unfold Py.endswith. rewrite <- append_assoc, length_append.
    replace (String.length ".md" <=? String.length ("dc" ++ ds) + String.length ".md")%nat
      with true by (symmetry; apply Nat.leb_le; lia).
    replace (String.length ("dc" ++ ds) + String.length ".md" - String.length ".md")%nat
      with (String.length ("dc" ++ ds)) by lia.
    now rewrite substring_suffix. }
  rewrite H1, H2. cbn [andb]. apply Nat.leb_le.
  cbn [String.append String.length]. rewrite length_append.
  cbn [String.length]. lia.
Qed.

Lemma replace_digits s :
  all_chars Py.isdigit s = true -> Py.replace_from "dc" "" O s = s.
Proof.
  induction s as [|c s IH]; [reflexivity|]. intros H. simpl in H.
  apply andb_true_iff in H. destruct H as [Hc Hs].
  assert (Hd : Ascii.eqb c "d" = false) by (now apply digit_not_char).
  apply Ascii.eqb_neq in Hd.
  cbn [Py.replace_from String.prefix].
  destruct (ascii_dec "d" c) as [E|_]; [congruence|]. now rewrite (IH Hs).
Qed.

Lemma replace_dc_digits s :
  all_chars Py.isdigit s = true -> Py.replace "dc" "" ("dc" ++ s) = s.
Proof.
  intros H. unfold Py.replace. simpl. rewrite (replace_digits s H).
  now destruct s.
Qed.

(** The section number of [dc<digits>.md] is the value of the digits. *)
Lemma section_number_of_digits lim f ds :
  name f = "dc" ++ ds ++ ".md" ->
  all_chars Py.isdigit ds = true ->
  ds <> EmptyString ->
  Py.too_many_digits lim (String.length ds) = false ->
  section_number_of lim f = Ok (Py.digits_value ds 0).
Proof.
  intros Hname Hd Hne Hlim. unfold section_number_of. rewrite Hname.
  rewrite <- append_assoc, stem_md by discriminate.
  rewrite (replace_dc_digits ds Hd).
  destruct (int_of_digits lim ds Hd Hne Hlim) as [-> _]. reflexivity.
Qed.

Lemma zeros_digits z : all_chars Py.isdigit (zeros z) = true.
Proof. induction z as [|z IH]; simpl; [reflexivity | exact IH]. Qed.

Lemma zeros_length z : String.length (zeros z) = z.
Proof. induction z as [|z IH]; simpl; [reflexivity | now rewrite IH]. Qed.

Lemma zeros_value z s : Py.digits_value (zeros z ++ s) 0 = Py.digits_value s 0.
Proof. induction z as [|z IH]; simpl; [reflexivity | exact IH]. Qed.

(** X3: the file [dc<zeros><n>.md] of a non-negative [n], whatever the
    padding, is enumerated and its section number is [n], as in the
    script's example [dc001.md -> 1]. *)
Theorem section_number_of_padded_name (lim z : nat) (n : Z) (content : string) :
  0 <= n ->
  Py.too_many_digits lim (z + decimal_digits n) = false ->
  glob_dc_md ("dc" ++ (zeros z ++ Py.str n) ++ ".md") = true
  /\ section_number_of lim (file ("dc" ++ (zeros z ++ Py.str n) ++ ".md") content)
     = Ok n.
Proof.
  intros Hn Hlim. split; [apply glob_dc_md_numbered|].
  destruct (str_abs_digits n) as (Hd & Hne & Hv & _).
  unfold decimal_digits in Hlim.
  rewrite (Z.abs_eq n Hn) in *.
  rewrite (section_number_of_digits lim
             (file ("dc" ++ (zeros z ++ Py.str n) ++ ".md") content)
             (zeros z ++ Py.str n) eq_refl).
  - now rewrite zeros_value, Hv.
  - now rewrite all_chars_app, zeros_digits, Hd.
  - destruct (zeros z); simpl; [exact Hne | discriminate].
  - now rewrite length_append, zeros_length.
Qed.

Lemma section_number_of_padded_name_witness :
  glob_dc_md ("dc" ++ (zeros 2 ++ Py.str 1) ++ ".md") = true
  /\ section_number_of 4300 (file ("dc" ++ (zeros 2 ++ Py.str 1) ++ ".md") "text")
     = Ok 1.
Proof.
  apply (section_number_of_padded_name 4300 2 1 "text"); [lia | reflexivity].
Defined.

(** *** Names of equal length sort as their numbers *)

Lemma digit_value_range c : Py.isdigit c = true -> 0 <= Py.digit_value c <= 9.
Proof.
  unfold Py.isdigit, Py.digit_value. intros H. apply andb_true_iff in H.
  destruct H as [H1 H2]. apply N.leb_le in H1. apply N.leb_le in H2. lia.
Qed.

Lemma digits_value_acc s acc :
  all_chars Py.isdigit s = true ->
  Py.digits_value s acc
  = acc * 10 ^ Z.of_nat (String.length s) + Py.digits_value s 0.
Proof.
  revert acc. induction s as [|c s IH]; intros acc H.
  - simpl. lia.
  - simpl in H. apply andb_true_iff in H. destruct H as [Hc Hs].
    cbn [Py.digits_value String.length].
    rewrite (digit_not_underscore c Hc).
    rewrite (IH (10 * acc + Py.digit_value c) Hs),
      (IH (10 * 0 + Py.digit_value c) Hs).
    rewrite Nat2Z.inj_succ, Z.pow_succ_r by lia. lia.
Qed.

Lemma digits_value_bound s :
  all_chars Py.isdigit s = true ->
  0 <= Py.digits_value s 0 < 10 ^ Z.of_nat (String.length s).
Proof.
  induction s as [|c s IH]; intros H.
  - simpl. lia.
  - simpl in H. apply andb_true_iff in H. destruct H as [Hc Hs].
    cbn [Py.digits_value String.length].
    rewrite (digit_not_underscore c Hc), (digits_value_acc s _ Hs).
    rewrite Nat2Z.inj_succ, Z.pow_succ_r by lia.
    pose proof (digit_value_range c Hc). specialize (IH Hs). nia.
Qed.

Lemma compare_digits_le a b t :
  all_chars Py.isdigit a = true -> all_chars Py.isdigit b = true ->
  String.length a = String.length b ->
  String.compare (a ++ t) (b ++ t) <> Gt ->
  Py.digits_value a 0 <= Py.digits_value b 0.
Proof.
  revert b. induction a as [|x a IH]; intros [|y b] Ha Hb Hlen Hcmp;
    try discriminate.
  simpl in Ha, Hb. apply andb_true_iff in Ha. apply andb_true_iff in Hb.
  destruct Ha as [Hx Ha]. destruct Hb as [Hy Hb].
  injection Hlen as Hlen. cbn [Py.digits_value].
  rewrite (digit_not_underscore x Hx), (digit_not_underscore y Hy).
  rewrite (digits_value_acc a _ Ha), (digits_value_acc b _ Hb), Hlen.
  pose proof (digits_value_bound a Ha) as Ba.
  pose proof (digits_value_bound b Hb) as Bb. rewrite Hlen in Ba.
  cbn [String.append String.compare] in Hcmp.
  unfold Ascii.compare in Hcmp.
  destruct (N.compare_spec (N_of_ascii x) (N_of_ascii y)) as [E|E|E].
  - assert (x = y).
    { rewrite <- (ascii_N_embedding x), <- (ascii_N_embedding y). now f_equal. }
    subst y. specialize (IH b Ha Hb Hlen Hcmp). lia.
  - assert (Py.digit_value x + 1 <= Py.digit_value y)
      by (unfold Py.digit_value, Py.ord; lia).
    pose proof (digit_value_range x Hx). nia.
  - congruence.
Qed.

Lemma numbered_names_le lim k f g a b :
  numbered_name k (name f) -> numbered_name k (name g) ->
  (0 < k)%nat -> Py.too_many_digits lim k = false ->
  section_number_of lim f = Ok a -> section_number_of lim g = Ok b ->
  name_le f g -> a <= b.
Proof.
  intros (ds1 & Hn1 & Hd1 & Hl1) (ds2 & Hn2 & Hd2 & Hl2) Hk Hlim Ha Hb Hle.
  assert (Hne1 : ds1 <> EmptyString) by (destruct ds1; [simpl in Hl1; lia | discriminate]).
  assert (Hne2 : ds2 <> EmptyString) by (destruct ds2; [simpl in Hl2; lia | discriminate]).
  rewrite <- Hl1 in Hlim.
  rewrite (section_number_of_digits lim f ds1 Hn1 Hd1 Hne1 Hlim) in Ha.
  rewrite Hl1, <- Hl2 in Hlim.
  rewrite (section_number_of_digits lim g ds2 Hn2 Hd2 Hne2 Hlim) in Hb.
  injection Ha as <-. injection Hb as <-.
  apply (compare_digits_le ds1 ds2 ".md" Hd1 Hd2); [congruence|].
  unfold name_le, String.leb in Hle. rewrite Hn1, Hn2 in Hle.
  cbn [String.append String.compare] in Hle.
  change (Ascii.compare "d" "d") with Eq in Hle.
  change (Ascii.compare "c" "c") with Eq in Hle.
  cbv iota in Hle. intros E. rewrite E in Hle. discriminate.
Qed.

Lemma numbered_section lim k f :
  numbered_name k (name f) -> (0 < k)%nat ->
  Py.too_many_digits lim k = false ->
  exists n, section_number_of lim f = Ok n.
Proof.
  intros (ds & Hn & Hd & Hl) Hk Hlim.
  exists (Py.digits_value ds 0). apply (section_number_of_digits lim f ds Hn Hd).
  - destruct ds; [simpl in Hl; lia | discriminate].
  - now rewrite Hl.
Qed.

Lemma numbered_files_sorted lim k files :
  (0 < k)%nat -> Py.too_many_digits lim k = false ->
  Forall (fun f => numbered_name k (name f)) files ->
  StronglySorted name_le files ->
  exists sections,
    map (section_number_of lim) files = map Ok sections
    /\ StronglySorted Z.le sections
    /\ Forall2 (fun f n => section_number_of lim f = Ok n) files sections.
Proof.
  intros Hk Hlim Hall Hsorted.
  induction Hsorted as [|f files Hs IH Hf].
  - exists []. repeat constructor.
  - inversion Hall as [|? ? Hnf Hall0]; subst.
    destruct (IH Hall0) as (sections & Hmap & Hss & Hrel).
    destruct (numbered_section lim k f Hnf Hk Hlim) as [n Hn].
    exists (n :: sections). simpl. rewrite Hn, Hmap.
    split; [reflexivity|]. split; [|now constructor].
    constructor; [exact Hss|].
    clear -Hrel Hf Hall0 Hnf Hk Hlim Hn.
    induction Hrel as [|g m files sections Hg _ IHr]; constructor.
    + inversion Hall0; subst. inversion Hf; subst.
      exact (numbered_names_le lim k f g n m Hnf H1 Hk Hlim Hn Hg H3).
    + inversion Hall0; subst. inversion Hf; subst. now apply IHr.
Qed.

(** X4: when every matching name is [dc<digits>.md] with the same number
    [k] of digits (zero-padded names), every enumerated file has a section
    number and the enumeration is in ascending order of section number. *)
Theorem padded_names_sorted_by_section (lim k : nat) (entries : list dir_entry) :
  (0 < k)%nat ->
  Py.too_many_digits lim k = false ->
  Forall (fun f => glob_dc_md (name f) = true -> numbered_name k (name f))
    entries ->
  exists sections,
    map (section_number_of lim) (get_dc_files (Directory entries))
    = map Ok sections
    /\ StronglySorted Z.le sections.
Proof.
  intros Hk Hlim Hall.
  destruct (get_dc_files_sorted_selection entries) as (_ & Hsorted & Hin).
  destruct (numbered_files_sorted lim k (get_dc_files (Directory entries)) Hk Hlim)
    as (sections & Hmap & Hss & _); [|exact Hsorted|now exists sections].
  apply Forall_forall. intros f Hf. apply Hin in Hf. destruct Hf as [Hf Hg].
  rewrite Forall_forall in Hall. exact (Hall f Hf Hg).
Qed.

Lemma padded_names_sorted_by_section_witness :
  exists sections,
    map (section_number_of 4300) (get_dc_files (Directory [dc004; dc001]))
    = map Ok sections
    /\ StronglySorted Z.le sections.
Proof.
  apply (padded_names_sorted_by_section 4300 3 [dc004; dc001]).
  - lia.
  - reflexivity.
  - constructor; [|constructor; [|constructor]]; intros _.
    + exists "004". repeat split.
    + exists "001". repeat split.
Defined.

(* ================================================================== *)
(** ** Further properties: reading the reply *)
(* ================================================================== *)

Lemma contains_middle label pre rest :
  Py.contains label (pre ++ label ++ rest) = true.
Proof.
  induction pre as [|c pre IH]; [exact (contains_prefix label rest)|].
  change (String c pre ++ label ++ rest) with (String c (pre ++ label ++ rest)).
  cbn [Py.contains]. rewrite IH. apply orb_true_r.
Qed.

Lemma lstrip_spaces ws s :
  all_chars Py.isspace ws = true -> Py.lstrip (ws ++ s) = Py.lstrip s.
Proof.
  induction ws as [|c ws IH]; [reflexivity|]. simpl. intros H.
  apply andb_true_iff in H. destruct H as [Hc Hws]. now rewrite Hc, (IH Hws).
Qed.

Lemma rstrip_all_spaces ws :
  all_chars Py.isspace ws = true -> Py.rstrip ws = EmptyString.
Proof.
  induction ws as [|c ws IH]; [reflexivity|]. simpl. intros H.
  apply andb_true_iff in H. destruct H as [Hc Hws]. now rewrite (IH Hws), Hc.
Qed.

Lemma rstrip_spaces s ws :
  all_chars Py.isspace ws = true -> Py.rstrip (s ++ ws) = Py.rstrip s.
Proof.
  intros Hws. induction s as [|c s IH]; simpl.
  - now apply rstrip_all_spaces.
  - now rewrite IH.
Qed.

Lemma space_not_colon c : Py.isspace c = true -> not_char ":" c = true.
Proof.
  intros H. unfold not_char. apply negb_true_iff, Ascii.eqb_neq.
  intros ->. discriminate.
Qed.

(** X5: a line that holds the label (after any colon-free text), then white
    space of any length, the integer, and trailing white space (a carriage
    return, say) assigns that integer. *)
Theorem line_value_tolerates_spaces (lim : nat) (pre name ws1 ws2 : string)
  (n : Z) :
  all_chars (not_char ":") pre = true ->
  all_chars (not_char ":") name = true ->
  all_chars Py.isspace ws1 = true ->
  all_chars Py.isspace ws2 = true ->
  Py.too_many_digits lim (decimal_digits n) = false ->
  line_value lim (name ++ ":")
    (pre ++ (name ++ ":") ++ ws1 ++ Py.str n ++ ws2) = Some n.
Proof.
  intros Hpre Hname H1 H2 Hlim. unfold line_value.
  rewrite contains_middle. unfold parse_field.
  replace (pre ++ (name ++ ":") ++ ws1 ++ Py.str n ++ ws2)
    with ((pre ++ name) ++ String ":" (ws1 ++ Py.str n ++ ws2))
    by (now rewrite !append_assoc).
  rewrite split_app by (now rewrite all_chars_app, Hpre, Hname).
  assert (Hstr : all_chars (not_char ":") (Py.str n) = true).
  { apply (all_chars_impl sign_or_digit); [|apply str_chars].
    intros c. apply sign_or_digit_not_char. reflexivity. }
  rewrite split_not_char.
  2:{ rewrite !all_chars_app, Hstr.
      rewrite (all_chars_impl _ _ ws1 space_not_colon H1).
      now rewrite (all_chars_impl _ _ ws2 space_not_colon H2). }
  cbn [nth_error]. unfold Py.strip.
  assert (Hns : all_chars not_space (Py.str n) = true).
  { apply (all_chars_impl sign_or_digit); [apply sign_or_digit_not_space|].
    apply str_chars. }
  rewrite (lstrip_spaces ws1 _ H1).
  assert (Hl : Py.lstrip (Py.str n ++ ws2) = Py.str n ++ ws2).
  { destruct (str_abs_digits n) as (_ & _ & _ & Hs).
    destruct (Py.str n) as [|c s] eqn:E.
    - exfalso. destruct (n <? 0); [discriminate|].
      destruct (str_abs_digits n) as (_ & Hne & _ & _). congruence.
    - simpl in Hns. apply andb_true_iff in Hns. destruct Hns as [Hc _].
      unfold not_space in Hc. apply negb_true_iff in Hc.
      simpl. now rewrite Hc. }
  rewrite Hl, (rstrip_spaces _ ws2 H2), (rstrip_not_space _ Hns).
  now rewrite (int_str lim n Hlim).
Qed.

Lemma line_value_tolerates_spaces_witness :
  line_value 4300 ("WORD_COUNT" ++ ":")
    ("**" ++ ("WORD_COUNT" ++ ":") ++ "   " ++ Py.str 12 ++ cr) = Some 12.
Proof.
  apply (line_value_tolerates_spaces 4300 "**" "WORD_COUNT" "   " cr 12);
    reflexivity.
Defined.

(** *** Fields that [int] refuses *)

Lemma not_acceptable_lstrip s :
  all_chars numeral_or_space s = false ->
  all_chars numeral_or_space (Py.lstrip s) = false.
Proof.
  induction s as [|c s IH]; [discriminate|]. intros H.
  cbn [Py.lstrip]. destruct (Py.isspace c) eqn:E; [|exact H].
  apply IH. simpl in H. unfold numeral_or_space at 1 in H.
  rewrite E in H. rewrite !orb_true_r in H. exact H.
Qed.

Lemma not_acceptable_rstrip s :
  all_chars numeral_or_space s = false ->
  all_chars numeral_or_space (Py.rstrip s) = false.
Proof.
  induction s as [|c s IH]; [discriminate|]. intros H.
  cbn [Py.rstrip all_chars] in *.
  destruct (numeral_or_space c) eqn:Ec.
  - simpl in H. specialize (IH H).
    destruct (Py.rstrip s) as [|a r]; [discriminate|].
    change (all_chars numeral_or_space (String c (String a r)))
      with (numeral_or_space c && all_chars numeral_or_space (String a r)).
    now rewrite Ec, IH.
  - assert (Es : Py.isspace c = false).
    { unfold numeral_or_space in Ec. destruct (Py.isspace c); [|reflexivity].
      rewrite !orb_true_r in Ec. discriminate. }
    destruct (Py.rstrip s); [rewrite Es|]; cbn [all_chars]; now rewrite Ec.
Qed.

Lemma int_space_acceptable c :
  Py.int_isspace c = true -> numeral_or_space c = true.
Proof.
  intros H. unfold numeral_or_space.
  assert (Hs : Py.isspace c = true).
  { revert H. unfold Py.int_isspace, Py.isspace. generalize (Py.ord c).
    intros m H. repeat (apply orb_true_iff in H; destruct H as [H|H]);
      rewrite H; now rewrite ?orb_true_r. }
  rewrite Hs. now rewrite !orb_true_r.
Qed.

Lemma not_acceptable_int_lstrip s :
  all_chars numeral_or_space s = false ->
  all_chars numeral_or_space (Py.int_lstrip s) = false.
Proof.
  induction s as [|c s IH]; [discriminate|]. intros H.
  cbn [Py.int_lstrip]. destruct (Py.int_isspace c) eqn:E; [|exact H].
  apply IH. simpl in H. now rewrite (int_space_acceptable c E) in H.
Qed.

Lemma not_acceptable_span s :
  all_chars numeral_or_space s = false ->
  Py.all_int_space (snd (Py.span_numeral s)) = false.
Proof.
  induction s as [|c s IH]; [discriminate|]. intros H.
  cbn [Py.span_numeral]. destruct (Py.isdigit c || Py.is_underscore c) eqn:E.
  - destruct (Py.span_numeral s) as [b r] eqn:Es. simpl. simpl in IH.
    apply IH. simpl in H. unfold numeral_or_space at 1 in H.
    rewrite E in H. exact H.
  - cbn [snd Py.all_int_space]. destruct (Py.int_isspace c) eqn:Ei; [|reflexivity].
    simpl. simpl in H. rewrite (int_space_acceptable c Ei) in H. simpl in H.
    clear -H. induction s as [|d s IH]; [discriminate|].
    simpl in *. destruct (Py.int_isspace d) eqn:Ed; [|reflexivity].
    rewrite (int_space_acceptable d Ed) in H. simpl in *. now apply IH.
Qed.

(** [int] refuses every string that holds a character other than digits,
    underscores, signs and white space. *)
Lemma int_refuses lim s :
  all_chars numeral_or_space s = false -> Py.int lim s = None.
Proof.
  intros H. apply not_acceptable_int_lstrip in H. unfold Py.int.
  assert (H2 : all_chars numeral_or_space (snd (Py.split_sign (Py.int_lstrip s)))
               = false).
  { destruct (Py.int_lstrip s) as [|c r]; [discriminate|].
    unfold Py.split_sign.
    destruct (Ascii.eqb c "-") eqn:E1; [|destruct (Ascii.eqb c "+") eqn:E2];
      [| |exact H]; simpl; simpl in H; unfold numeral_or_space at 1 in H;
      rewrite ?E1, ?E2, ?orb_true_r in H; exact H. }
  destruct (Py.split_sign (Py.int_lstrip s)) as [negative s2]. simpl in H2.
  pose proof (not_acceptable_span s2 H2) as H3.
  destruct (Py.span_numeral s2) as [body rest]. simpl in H3.
  now rewrite H3, andb_false_r.
Qed.

(** X6: when the second colon-separated field of a line holds a character
    that is no digit, underscore, sign or white space (a percent sign, a
    comma, a decimal point, a letter), the line changes neither value,
    whatever label it carries. *)
Theorem stray_character_leaves_value (lim : nat) (label line field : string)
  (v : option Z) :
  nth_error (Py.split ":" line) 1 = Some field ->
  all_chars numeral_or_space field = false ->
  update_field lim label line v = v
  /\ line_value lim label line = None.
Proof.
  intros Hfield Hbad.
  assert (Hp : parse_field lim line = Raise ValueError).
  { unfold parse_field. rewrite Hfield. unfold Py.strip.
    now rewrite (int_refuses lim _
                   (not_acceptable_rstrip _ (not_acceptable_lstrip _ Hbad))). }
  unfold update_field, line_value. rewrite Hp.
  now destruct (Py.contains label line).
Qed.

Lemma stray_character_leaves_value_witness :
  update_field 4300 "CONFIDENCE:" "CONFIDENCE: 95%" (Some 80) = Some 80
  /\ line_value 4300 "CONFIDENCE:" "CONFIDENCE: 95%" = None.
Proof.
  apply (stray_character_leaves_value 4300 "CONFIDENCE:" "CONFIDENCE: 95%"
           " 95%" (Some 80)); reflexivity.
Defined.

(** *** Lines without a label *)

Lemma line_value_unlabelled lim l :
  labelled l = false ->
  line_value lim "WORD_COUNT:" l = None /\ line_value lim "CONFIDENCE:" l = None.
Proof.
  unfold labelled, line_value. intros H. apply orb_false_iff in H.
  destruct H as [-> ->]. now split.
Qed.

Lemma last_value_filter lim lines :
  last_value lim "WORD_COUNT:" (filter labelled lines)
  = last_value lim "WORD_COUNT:" lines
  /\ last_value lim "CONFIDENCE:" (filter labelled lines)
     = last_value lim "CONFIDENCE:" lines.
Proof.
  induction lines as [|l ls [IH1 IH2]]; [now split|].
  cbn [filter last_value]. destruct (labelled l) eqn:E.
  - cbn [last_value]. now rewrite IH1, IH2.
  - destruct (line_value_unlabelled lim l E) as [-> ->]. rewrite IH1, IH2.
    split; match goal with |- _ = match ?x with _ => _ end => now destruct x end.
Qed.

(** X7: only the lines that carry a label count: two replies whose
    labelled lines are the same, in the same order, are parsed to the same
    pair, whatever else they hold. *)
Theorem unlabelled_lines_ignored (lim : nat) (text1 text2 : string) :
  filter labelled (reply_lines text1) = filter labelled (reply_lines text2) ->
  parse_response lim text1 = parse_response lim text2.
Proof.
  intros H. rewrite !parse_response_last.
  destruct (last_value_filter lim (reply_lines text1)) as [<- <-].
  destruct (last_value_filter lim (reply_lines text2)) as [<- <-].
  now rewrite H.
Qed.

Lemma unlabelled_lines_ignored_witness :
  parse_response 4300
    ("Here is my analysis." ++ nl ++ "WORD_COUNT: 12" ++ nl ++ nl
     ++ "CONFIDENCE: 90" ++ nl ++ "Thank you")
  = parse_response 4300 ("WORD_COUNT: 12" ++ nl ++ "CONFIDENCE: 90").
Proof.
  apply (unlabelled_lines_ignored 4300
           ("Here is my analysis." ++ nl ++ "WORD_COUNT: 12" ++ nl ++ nl
            ++ "CONFIDENCE: 90" ++ nl ++ "Thank you")
           ("WORD_COUNT: 12" ++ nl ++ "CONFIDENCE: 90")).
  reflexivity.
Defined.

(* ================================================================== *)
(** ** Further properties: the run and its report *)
(* ================================================================== *)




(** X9: when the remote call of a document succeeds and the last lines
    that assign a word count and a confidence assign [v] and [c], the
    document's row is [(section, v, c)]: both integers are recorded
    unchanged, a confidence of [0] included. *)
Theorem parsed_values_recorded (w : world) (out : output) (k : nat)
  (f : dir_entry) (n v c : Z) (content text0 : string)
  (others : list (option string)) :
  main w = Ok out ->
  nth_error (get_dc_files (dc_path w)) k = Some f ->
  section_number_of (max_str_digits w) f = Ok n ->
  text f = Some content ->
  create w k (prompt n content) = ApiResponse (Some text0 :: others) ->
  last_value (max_str_digits w) "WORD_COUNT:" (reply_lines (Py.strip text0))
  = Some v ->
  last_value (max_str_digits w) "CONFIDENCE:" (reply_lines (Py.strip text0))
  = Some c ->
  nth_error (results out) k
  = Some {| section := n; words := PInt v; confidence := PInt c |}.
Proof.
  intros Hmain Hk Hn Hc Hcall Hv Hcf. apply main_results in Hmain.
  destruct (rows_for_nth _ _ _ _ Hmain k f Hk) as (r & H1 & H2).
  rewrite H1. f_equal. simpl in H2.
  unfold process_file, read_text in H2. rewrite Hn, Hc in H2. simpl in H2.
  injection H2 as <-.
  unfold count_savior_words, request_and_parse. rewrite Hcall. simpl.
  rewrite parse_response_last, Hv, Hcf. simpl.
  destruct (Z.eqb_spec c 0) as [->|_]; reflexivity.
Qed.

Lemma parsed_values_recorded_witness :
  nth_error [ {| section := 1; words := PInt 12; confidence := PInt 90 |};
              error_row 4 ] 0
  = Some {| section := 1; words := PInt 12; confidence := PInt 90 |}.
Proof.
  apply (parsed_values_recorded scenario_world
           {| results := [ {| section := 1; words := PInt 12; confidence := PInt 90 |};
                           error_row 4 ];
              output_csv := csv_text
                         [ {| section := 1; words := PInt 12; confidence := PInt 90 |};
                           error_row 4 ];
              processed := 2; successful := 1; total_words := 12 |}
           0 dc001 1 12 90 "I the Lord say unto thee"
           ("WORD_COUNT: 12" ++ nl ++ "CONFIDENCE: 90") []);
    reflexivity.
Defined.

(** *** The summary *)

Lemma filter_split_length {A : Type} (p : A -> bool) (l : list A) :
  (List.length (filter p l) + List.length (filter (fun x => negb (p x)) l)
   = List.length l)%nat.
Proof.
  induction l as [|x l IH]; [reflexivity|]. simpl.
  destruct (p x); simpl; lia.
Qed.

Lemma sum_int_words_all_errors rows :
  Forall (fun r => words_is_int r = false) rows -> sum_int_words rows = 0.
Proof.
  induction 1 as [|r rows Hr _ IH]; [reflexivity|]. simpl.
  unfold words_is_int in Hr. destruct (words r); try exact IH. discriminate.
Qed.

(** X10: in the summary of a run, the number of successes lies between 0
    and the number of processed sections, it falls short of that number by
    the number of ['ERROR'] rows, and when it is 0 the total of words is
    0. *)
Theorem summary_bounds (w : world) (out : output) :
  main w = Ok out ->
  0 <= successful out <= Z.of_nat (processed out)
  /\ successful out
     + Z.of_nat (List.length (filter words_is_error (results out)))
     = Z.of_nat (processed out)
  /\ (successful out = 0 -> total_words out = 0).
Proof.
  intros Hmain. pose proof (main_results _ _ Hmain) as Hrows.
  apply main_ok in Hmain. destruct Hmain as (rows & _ & ->).
  cbn [results successful total_words processed] in *.
  rewrite successful_count, total_words_sum. unfold count_not_error.
  pose proof (filter_split_length words_not_error rows) as Hsplit.
  fold words_is_error in Hsplit.
  split; [lia|]. split; [unfold words_is_error in *; lia|].
  intros H0. apply sum_int_words_all_errors.
  assert (Hnone : List.length (filter words_not_error rows) = O) by lia.
  apply Forall_forall. intros r Hin.
  destruct (rows_for_in _ _ _ _ Hrows r Hin) as (i & f & _ & Hr).
  destruct (process_file_cells _ _ _ _ Hr) as [[[v Hv]|[He _]] _];
    unfold words_is_int; [|now rewrite He].
  exfalso. assert (Hf : In r (filter words_not_error rows)).
  { apply filter_In. split; [exact Hin|]. unfold words_not_error. now rewrite Hv. }
  destruct (filter words_not_error rows); [destruct Hf | discriminate].
Qed.

Lemma summary_bounds_witness :
  0 <= 1 <= Z.of_nat 2
  /\ 1 + Z.of_nat (List.length (filter words_is_error
         [ {| section := 1; words := PInt 12; confidence := PInt 90 |};
           error_row 4 ]))
     = Z.of_nat 2
  /\ (1 = 0 -> 12 = 0).
Proof.
  apply (summary_bounds scenario_world
           {| results := [ {| section := 1; words := PInt 12; confidence := PInt 90 |};
                           error_row 4 ];
              output_csv := csv_text
                         [ {| section := 1; words := PInt 12; confidence := PInt 90 |};
                           error_row 4 ];
              processed := 2; successful := 1; total_words := 12 |}).
  reflexivity.
Defined.

(** *** The records of the report *)

Lemma str_no_comma n : all_chars (not_char ",") (Py.str n) = true.
Proof.
  apply (all_chars_impl sign_or_digit); [|apply str_chars].
  intros c. apply sign_or_digit_not_char. reflexivity.
Qed.

Lemma csv_row_fields r :
  ((exists v, words r = PInt v) \/ words r = PStr "ERROR") ->
  (exists c, confidence r = PInt c) ->
  Py.split "," (csv_row r)
  = [Py.str (section r); csv_cell (words r); csv_cell (confidence r)].
Proof.
  intros Hw [c Hc]. unfold csv_row. rewrite Hc. cbn [csv_cell].
  change ("," ++ csv_cell (words r) ++ "," ++ Py.str c)
    with (String "," (csv_cell (words r) ++ String "," (Py.str c))).
  rewrite (split_app "," _ _ (str_no_comma (section r))).
  assert (Hcell : all_chars (not_char ",") (csv_cell (words r)) = true).
  { destruct Hw as [[v ->]| ->]; [apply str_no_comma | reflexivity]. }
  rewrite (split_app "," _ _ Hcell).
  now rewrite (split_not_char "," _ (str_no_comma c)).
Qed.

(** X11: every data record of the report has exactly three
    comma-separated fields: the section number, then the word count or
    [ERROR], then the confidence, the integers in decimal. *)
Theorem report_records_have_three_fields (w : world) (out : output) (r : row) :
  main w = Ok out ->
  In r (results out) ->
  In (csv_row r) (tl (csv_read (output_csv out)))
  /\ exists c,
       confidence r = PInt c
       /\ ((exists v,
              words r = PInt v
              /\ Py.split "," (csv_row r)
                 = [Py.str (section r); Py.str v; Py.str c])
           \/ (words r = PStr "ERROR"
               /\ Py.split "," (csv_row r)
                  = [Py.str (section r); "ERROR"; Py.str c])).
Proof.
  intros Hmain Hin. pose proof (main_results _ _ Hmain) as Hrows.
  apply main_ok in Hmain. destruct Hmain as (rows & _ & ->).
  cbn [results output_csv] in *. split.
  - rewrite (csv_read_report _ _ _ _ Hrows). unfold csv_records. cbn [tl].
    now apply in_map.
  - destruct (rows_for_in _ _ _ _ Hrows r Hin) as (i & f & _ & Hr).
    destruct (process_file_cells _ _ _ _ Hr) as [Hw [c Hc]].
    exists c. split; [exact Hc|].
    destruct Hw as [[v Hv]|[He _]].
    + left. exists v. split; [exact Hv|].
      rewrite csv_row_fields by eauto. now rewrite Hv, Hc.
    + right. split; [exact He|].
      rewrite csv_row_fields by eauto. now rewrite He, Hc.
Qed.

Lemma report_records_have_three_fields_witness :
  In (csv_row (error_row 4))
    (tl (csv_read (csv_text
       [ {| section := 1; words := PInt 12; confidence := PInt 90 |};
         error_row 4 ])))
  /\ exists c,
       confidence (error_row 4) = PInt c
       /\ ((exists v,
              words (error_row 4) = PInt v
              /\ Py.split "," (csv_row (error_row 4))
                 = [Py.str (section (error_row 4)); Py.str v; Py.str c])
           \/ (words (error_row 4) = PStr "ERROR"
               /\ Py.split "," (csv_row (error_row 4))
                  = [Py.str (section (error_row 4)); "ERROR"; Py.str c])).
Proof.
  apply (report_records_have_three_fields scenario_world
           {| results := [ {| section := 1; words := PInt 12; confidence := PInt 90 |};
                           error_row 4 ];
              output_csv := csv_text
                         [ {| section := 1; words := PInt 12; confidence := PInt 90 |};
                           error_row 4 ];
              processed := 2; successful := 1; total_words := 12 |}
           (error_row 4)).
  - reflexivity.
  - right. left. reflexivity.
Defined.

(** *** The report determines the results *)

Lemma str_injective a b : Py.str a = Py.str b -> a = b.
Proof.
  intros H.
  assert (Hlim : forall n, Py.too_many_digits 0 (decimal_digits n) = false).
  { intros n. unfold Py.too_many_digits. simpl (0 <? 0)%nat.
    now rewrite andb_false_r. }
  pose proof (int_str O a (Hlim a)) as Ha.
  pose proof (int_str O b (Hlim b)) as Hb.
  rewrite H in Ha. congruence.
Qed.

Lemma str_not_error v : Py.str v <> "ERROR".
Proof.
  intros H. pose proof (str_chars v) as Hc. rewrite H in Hc. discriminate.
Qed.

Lemma csv_row_injective r1 r2 :
  recorded_shape r1 -> recorded_shape r2 ->
  csv_row r1 = csv_row r2 -> r1 = r2.
Proof.
  intros [Hw1 Hc1] [Hw2 Hc2] H.
  pose proof (csv_row_fields r1 Hw1 Hc1) as F1.
  pose proof (csv_row_fields r2 Hw2 Hc2) as F2.
  rewrite H, F2 in F1. injection F1 as Hs Hw Hc.
  destruct r1 as [s1 w1 c1], r2 as [s2 w2 c2]. simpl in *.
  destruct Hc1 as [a1 ->], Hc2 as [a2 ->]. simpl in Hc.
  apply str_injective in Hs. apply str_injective in Hc. subst.
  f_equal.
  destruct Hw1 as [[v1 ->]| ->], Hw2 as [[v2 ->]| ->]; simpl in Hw.
  - apply str_injective in Hw. now subst.
  - symmetry in Hw. now apply str_not_error in Hw.
  - now apply str_not_error in Hw.
  - reflexivity.
Qed.

Lemma map_csv_row_injective rows1 rows2 :
  Forall recorded_shape rows1 -> Forall recorded_shape rows2 ->
  map csv_row rows1 = map csv_row rows2 -> rows1 = rows2.
Proof.
  intros H1. revert rows2. induction H1 as [|r1 rows1 Hr1 _ IH];
    intros [|r2 rows2] H2 H; try discriminate; [reflexivity|].
  inversion H2; subst. simpl in H. injection H as Hr Hrest.
  f_equal; [now apply csv_row_injective | now apply IH].
Qed.

Lemma rows_for_shape w k files rows :
  rows_for w k files rows -> Forall recorded_shape rows.
Proof.
  induction 1 as [|k f files r rows Hr _ IH]; constructor; [|exact IH].
  destruct (process_file_cells _ _ _ _ Hr) as [Hw Hc]. split; [|exact Hc].
  destruct Hw as [Hw|[Hw _]]; [now left | now right].
Qed.

(** X12: the text of the report determines the results: two runs that
    write the same [output.csv] recorded the same rows, so that nothing of
    the results is lost in the file. *)
Theorem report_determines_results (w1 w2 : world) (out1 out2 : output) :
  main w1 = Ok out1 ->
  main w2 = Ok out2 ->
  output_csv out1 = output_csv out2 ->
  results out1 = results out2.
Proof.
  intros H1 H2 Hcsv.
  pose proof (main_results _ _ H1) as R1. pose proof (main_results _ _ H2) as R2.
  apply main_ok in H1. destruct H1 as (rows1 & _ & ->).
  apply main_ok in H2. destruct H2 as (rows2 & _ & ->).
  cbn [results output_csv] in *.
  assert (Hrec : csv_records rows1 = csv_records rows2).
  { rewrite <- (csv_read_report _ _ _ _ R1), <- (csv_read_report _ _ _ _ R2).
    now rewrite Hcsv. }
  unfold csv_records in Hrec. injection Hrec as Hmap.
  apply map_csv_row_injective; [exact (rows_for_shape _ _ _ _ R1)
                               | exact (rows_for_shape _ _ _ _ R2) | exact Hmap].
Qed.

Lemma report_determines_results_witness :
  [ {| section := 1; words := PInt 12; confidence := PInt 90 |}; error_row 4 ]
  = [ {| section := 1; words := PInt 12; confidence := PInt 90 |}; error_row 4 ].
Proof.
  apply (report_determines_results scenario_world
           (world_of [dc001; dc004]
              [reply ("CONFIDENCE: 90" ++ nl ++ "WORD_COUNT: 12"); reply "no count"])
           {| results := [ {| section := 1; words := PInt 12; confidence := PInt 90 |};
                           error_row 4 ];
              output_csv := csv_text
                         [ {| section := 1; words := PInt 12; confidence := PInt 90 |};
                           error_row 4 ];
              processed := 2; successful := 1; total_words := 12 |}
           {| results := [ {| section := 1; words := PInt 12; confidence := PInt 90 |};
                           error_row 4 ];
              output_csv := csv_text
                         [ {| section := 1; words := PInt 12; confidence := PInt 90 |};
                           error_row 4 ];
              processed := 2; successful := 1; total_words := 12 |});
    reflexivity.
Defined.

(** *** The order of the rows *)

Lemma rows_for_sections w k files rows sections :
  rows_for w k files rows ->
  Forall2 (fun f n => section_number_of (max_str_digits w) f = Ok n)
    files sections ->
  map section rows = sections.
Proof.
  intros H. revert sections.
  induction H as [|k f files r rows Hr _ IH]; intros sections Hs;
    inversion Hs as [|? n ? sections0 Hn Hs0]; subst; [reflexivity|].
  simpl. f_equal; [|now apply IH].
  apply process_file_section in Hr. congruence.
Qed.

(** X13: when every matching name of the directory is [dc<digits>.md] with
    the same number of digits, the rows of a run that completes are in
    ascending order of section number. *)
Theorem report_sorted_by_section (w : world) (k : nat)
  (entries : list dir_entry) (out : output) :
  dc_path w = Directory entries ->
  (0 < k)%nat ->
  Py.too_many_digits (max_str_digits w) k = false ->
  Forall (fun f => glob_dc_md (name f) = true -> numbered_name k (name f))
    entries ->
  main w = Ok out ->
  StronglySorted Z.le (map section (results out)).
Proof.
  intros Hdir Hk Hlim Hall Hmain. apply main_results in Hmain.
  rewrite Hdir in Hmain.
  destruct (get_dc_files_sorted_selection entries) as (_ & Hsorted & Hin).
  destruct (numbered_files_sorted (max_str_digits w) k
              (get_dc_files (Directory entries)) Hk Hlim)
    as (sections & _ & Hss & Hrel); [|exact Hsorted|].
  - apply Forall_forall. intros f Hf. apply Hin in Hf. destruct Hf as [Hf Hg].
    rewrite Forall_forall in Hall. exact (Hall f Hf Hg).
  - now rewrite (rows_for_sections _ _ _ _ _ Hmain Hrel).
Qed.

Lemma report_sorted_by_section_witness :
  StronglySorted Z.le
    (map section
       [ {| section := 1; words := PInt 12; confidence := PInt 90 |};
         error_row 4 ]).
Proof.
  apply (report_sorted_by_section scenario_world 3 [dc004; dc001]
           {| results := [ {| section := 1; words := PInt 12; confidence := PInt 90 |};
                           error_row 4 ];
              output_csv := csv_text
                         [ {| section := 1; words := PInt 12; confidence := PInt 90 |};
                           error_row 4 ];
              processed := 2; successful := 1; total_words := 12 |}).
  - reflexivity.
  - lia.
  - reflexivity.
  - constructor; [|constructor; [|constructor]]; intros _.
    + exists "004". repeat split.
    + exists "001". repeat split.
  - reflexivity.
Defined.
